(** * Energy consumption notebook: a model of the pipeline and its properties

    The notebook [pyspark_energy_analysis.ipynb] is a linear pipeline

      fetch_energy_data  ->  spark.read.csv  ->  fillna / to_timestamp
                         ->  date_trunc / groupBy / sum  ->  plot

    Every stage is a call into [requests], into the file system or into the
    Spark SQL engine, so the development consists of two layers:

    - a model of the library operations the notebook calls, following the
      behaviour of PySpark 3.x with its default configuration (the
      notebook's kernel is Python 3.8 and no option is set on the session:
      ANSI mode is off);
    - the notebook's own code, written over that model call by call.

    Modelling decisions, all of them visible in the definitions below:

    - a row is a finite map from column name to value; column order is not
      modelled, and names are compared exactly (they stand for the names
      after the engine's case normalisation);
    - a numeric cell holds a rational number.  The engine's doubles are the
      rationals of the binary64 format, and every operation on doubles
      rounds its exact result to the nearest of them, ties to even, with
      gradual underflow ([round64]); sums and averages of doubles are
      accumulated in the order of the records.  The format is taken without
      a largest exponent: the infinities, NaN and the sign of zero are
      outside the model, and with them a result beyond 1.8e308;
    - the engine's integers are 64-bit: a sum wraps around ([wrap64]) and a
      cast from a double saturates ([saturate64]).  [IntegerType] stands
      for the integral column types;
    - the engine's casts between strings and numbers, its string to
      timestamp cast and the session time zone are parameters ([Engine]);
      the time zone is a fixed offset from UTC;
    - a frame is modelled by the rows it denotes, in one order; when the
      engine computes them, and on how many partitions, is not modelled;
    - Python exceptions and JVM exceptions are values of [Exn], carried by
      the [result] type;
    - the file system is a finite map from path to contents, together with
      what it answers to an attempt to write a file: the write can be
      refused. *)

From Stdlib Require Import ZArith QArith Qcanon String Ascii Strings.Byte.
From stdpp Require Import base option list gmap strings pretty fin_maps numbers.

Open Scope Z_scope.

(** ** Exceptions and results *)

Inductive Exn : Type :=
| RequestException (msg : string)   (* raised by [requests.get] *)
| OSError (msg : string)            (* raised by [open], by the write or by the close *)
| AnalysisException                 (* Spark: unresolved column or type mismatch *)
| UnsupportedValueError.            (* Spark: the replacement value is refused *)

Inductive result (A : Type) : Type :=
| Ok (a : A)
| Raise (e : Exn).

Arguments Ok {A} a.
Arguments Raise {A} e.

Global Instance result_bind : MBind result :=
  fun A B (k : A -> result B) (m : result A) =>
    match m with
    | Ok a => k a
    | Raise e => Raise e
    end.

Definition returns {A : Type} (m : result A) : Prop := exists a, m = Ok a.

(** ** Fetcher *)

Module Fetcher.

(** What [requests.get] hands back when the exchange completes. *)
Record Response : Type := {
  status_code : Z;
  content : list byte
}.

(** What the file system makes of

      with open(path, 'wb') as f:
          f.write(data)

    The file holds the data when the block is left; or [open] raises and
    nothing is created or changed; or the file is opened, which empties
    it, and the write or the close raises with only the first [kept] bytes
    stored. *)
Inductive Storage : Type :=
| Stored
| OpenFails (e : Exn)
| WriteFails (e : Exn) (kept : nat).

(** The part of the outside world the function touches: the network (what
    a GET on a URL produces: a response, or an exception when no response
    is obtained), the local files, what the file system answers to the
    writing of some data at a path, and the console. *)
Record World : Type := {
  network : string -> result Response;
  storage : string -> list byte -> Storage;
  files : gmap string (list byte);
  console : list string
}.

Definition write_file (path : string) (data : list byte) (w : World) : World :=
  {| network := network w; storage := storage w;
     files := <[path := data]> (files w); console := console w |}.

Definition print (line : string) (w : World) : World :=
  {| network := network w; storage := storage w; files := files w;
     console := console w ++ [line] |}.

(** [fetch_energy_data(url, save_path)]: the outcome of the call and the
    world it leaves.  Neither the GET nor the [with] block is guarded. *)
Definition fetch_energy_data (url save_path : string) (w : World)
  : result unit * World :=
  match network w url with
  | Raise e => (Raise e, w)
  | Ok response =>
      if status_code response =? 200 then
        match storage w save_path (content response) with
        | Stored =>
            let w1 := write_file save_path (content response) w in
            let w2 := print ("Data saved to " +:+ save_path) w1 in
            (Ok tt, w2)
        | OpenFails e => (Raise e, w)
        | WriteFails e kept =>
            (Raise e, write_file save_path (take kept (content response)) w)
        end
      else
        (Ok tt, print "Failed to download data" w)
  end.

Definition dataset_url : string :=
  "https://data.open-power-system-data.org/time_series/2020-07-16/time_series_60min_singleindex.csv".

(** The statuses HTTP calls successful: the class 2xx. *)
Definition success_status (status : Z) : Prop := 200 <= status < 300.

End Fetcher.

(** ** Spark SQL: values, rows and frames *)

(** The column types the CSV reader infers that matter here.  [IntegerType]
    stands for the integral types (the reader picks [IntegerType] or
    [LongType] by magnitude), with the range of [LongType].  The reader
    can also infer a column of booleans or of dates; these types are not
    modelled. *)
Inductive DataType : Type :=
| IntegerType
| DoubleType
| StringType
| TimestampType.

(** A cell.  [VTimestamp t] is an instant: [t] microseconds since
    1970-01-01T00:00:00Z, which is all a Spark timestamp stores. *)
Inductive Value : Type :=
| VNull
| VNum (q : Qc)
| VString (s : string)
| VTimestamp (t : Z).

Global Instance DataType_eq_dec : EqDecision DataType.
Proof. solve_decision. Defined.

Global Instance Value_eq_dec : EqDecision Value.
Proof. solve_decision. Defined.

Record DataFrame : Type := {
  schema : gmap string DataType;
  rows : list (gmap string Value)
}.

(** The value of column [c] in row [r]. *)
Definition cell (r : gmap string Value) (c : string) : Value :=
  default VNull (r !! c).

Definition column (c : string) (df : DataFrame) : list Value :=
  (fun r => cell r c) <$> rows df.

(** What the engine is configured with, and the casts it brings. *)
Class Engine : Type := {
  (** cast of a string to [DoubleType]; [None] is SQL NULL *)
  string_to_double : string -> option Qc;
  (** cast of a double to [StringType] *)
  double_to_string : Qc -> string;
  (** cast of a string to [TimestampType]; [None] is SQL NULL *)
  string_to_timestamp : string -> option Z;
  (** [spark.sql.session.timeZone], in microseconds east of UTC *)
  session_zone : Z
}.

(** ** Arithmetic of the engine *)

Definition of_Z (z : Z) : Qc := Q2Qc (inject_Z z).

(** Rounding toward zero, as the JVM's narrowing of a double to an integer. *)
Definition truncate (q : Qc) : Z := Z.quot (Qnum q) (Z.pos (Qden q)).

(** Exact sums, the yardstick the engine's sums are compared with. *)
Definition sum_Z (l : list Z) : Z := foldr Z.add 0 l.

Definition sum_Qc (l : list Qc) : Qc := foldr Qcplus (of_Z 0) l.

(** *** 64-bit integers *)

Definition LONG_MIN : Z := - 2 ^ 63.
Definition LONG_MAX : Z := 2 ^ 63 - 1.

Definition in_long_range (z : Z) : Prop := LONG_MIN <= z <= LONG_MAX.

(** Two's complement wrap-around, as [Long] addition overflows. *)
Definition wrap64 (z : Z) : Z := (z + 2 ^ 63) mod 2 ^ 64 - 2 ^ 63.

(** The JVM's narrowing of an integral value that is out of range. *)
Definition saturate64 (z : Z) : Z := Z.max LONG_MIN (Z.min LONG_MAX z).

(** [sum] over longs: one wrapping addition per value, from zero. *)
Definition long_sum (l : list Z) : Z := foldl (fun s z => wrap64 (s + z)) 0 l.

(** *** Doubles *)

(** The integer nearest to [n / d], ties going to the even one, for
    [0 <= n] and [0 < d]. *)
Definition round_half_even (n d : Z) : Z :=
  let q := n / d in
  match 2 * (n mod d) ?= d with
  | Lt => q
  | Gt => q + 1
  | Eq => if Z.even q then q else q + 1
  end.

(** The exponent [k] with [2 ^ k <= n / d < 2 ^ (k + 1)], for [0 < n] and
    [0 < d]. *)
Definition binade (n d : Z) : Z :=
  let k := Z.log2 n - Z.log2 d in
  if (if 0 <=? k then n <? d * 2 ^ k else n * 2 ^ (- k) <? d)
  then k - 1 else k.

(** Rounding to binary64: 53 significant bits, no exponent below -1074
    (gradual underflow), nearest value with ties to even. *)
Definition round64 (q : Qc) : Qc :=
  let n := Z.abs (Qnum q) in
  let d := Z.pos (Qden q) in
  if n =? 0 then q
  else
    let e := Z.max (binade n d - 52) (-1074) in
    let m := if 0 <=? e then round_half_even n (d * 2 ^ e)
             else round_half_even (n * 2 ^ (- e)) d in
    let r := if 0 <=? e then inject_Z (m * 2 ^ e)
             else Qmake m (Z.to_pos (2 ^ (- e))) in
    Q2Qc (if Qnum q <? 0 then Qopp r else r).

(** [sum] over doubles: one rounded addition per value, from zero, in the
    order of the values. *)
Definition double_sum (l : list Qc) : Qc :=
  foldl (fun s x => round64 (Qcplus s x)) (of_Z 0) l.

(** [avg] over the non-null values of a column, each already a double: the
    sum of the doubles divided by their count, itself made a double; SQL
    NULL over no value. *)
Definition mean (l : list Qc) : option Qc :=
  match l with
  | [] => None
  | _ :: _ =>
      Some (round64 (Qcdiv (double_sum l)
                           (round64 (of_Z (Z.of_nat (length l))))))
  end.

Definition MICROS_PER_SECOND : Z := 1000000.
Definition MICROS_PER_DAY : Z := 86400 * MICROS_PER_SECOND.

Section Spark.

Context {E : Engine}.

(** The cast to [DoubleType] that [avg] applies to its argument, and [sum]
    to an argument that is not integral: a number is rounded to a double,
    a string is cast by the engine, and a timestamp becomes its seconds
    since the epoch. *)
Definition to_double (v : Value) : option Qc :=
  match v with
  | VNull => None
  | VNum q => Some (round64 q)
  | VString s => string_to_double s
  | VTimestamp t =>
      Some (round64 (Qcdiv (round64 (of_Z t)) (of_Z MICROS_PER_SECOND)))
  end.

(** A cell of an integral column as a long. *)
Definition to_long (v : Value) : option Z :=
  match v with
  | VNum q => Some (truncate q)
  | _ => None
  end.

(** [df.agg({c: "mean"}).collect()[0][0]]: a Python float, or [None] when
    the aggregate is NULL.  The column has to resolve; whatever its type,
    its values are cast to doubles. *)
Definition agg_mean (c : string) (df : DataFrame) : result (option Qc) :=
  match schema df !! c with
  | None => Raise AnalysisException
  | Some _ => Ok (mean (omap to_double (column c df)))
  end.

(** [lit(q).cast(t)] for a double literal [q]. *)
Definition cast_double (q : Qc) (t : DataType) : Value :=
  match t with
  | IntegerType => VNum (of_Z (saturate64 (truncate q)))
  | DoubleType => VNum q
  | StringType => VString (double_to_string q)
  | TimestampType =>
      VTimestamp
        (saturate64 (truncate (round64 (Qcmult q (of_Z MICROS_PER_SECOND)))))
  end.

(** [coalesce(col(c), v)] on one row. *)
Definition fill_row (c : string) (v : Value) (r : gmap string Value)
  : gmap string Value :=
  match cell r c with
  | VNull => <[c := v]> r
  | _ => r
  end.

(** [df.fillna({c: value})].  The replacement is cast to the column's type
    before it is used.  A dict value of [None] is refused. *)
Definition fillna (c : string) (value : option Qc) (df : DataFrame)
  : result DataFrame :=
  match value with
  | None => Raise UnsupportedValueError
  | Some q =>
      match schema df !! c with
      | None => Raise AnalysisException
      | Some t =>
          Ok {| schema := schema df;
                rows := fill_row c (cast_double q t) <$> rows df |}
      end
  end.

(** The cast to [TimestampType], which [to_timestamp] without a format is.
    A string that does not parse gives NULL (ANSI mode is off).  A number
    is a count of seconds: an integer is scaled to microseconds as a long,
    a number with a fraction as a double, both saturating.  (A cell does
    not record the type of its column: a double without a fraction is
    scaled as the same long, which is the double product as long as that
    product is below 2 ^ 59.) *)
Definition to_timestamp (v : Value) : Value :=
  match v with
  | VNull => VNull
  | VTimestamp t => VTimestamp t
  | VString s =>
      match string_to_timestamp s with
      | Some t => VTimestamp t
      | None => VNull
      end
  | VNum q =>
      VTimestamp
        (saturate64
           (if (Qden q =? 1)%positive then Qnum q * MICROS_PER_SECOND
            else truncate (round64 (Qcmult q (of_Z MICROS_PER_SECOND)))))
  end.

(** [df.withColumn(name, e)] where [e] has type [t] and value [e r] on row
    [r]: the column is added, or replaced when the name is taken. *)
Definition withColumn (name : string) (t : DataType)
    (e : gmap string Value -> Value) (df : DataFrame) : DataFrame :=
  {| schema := <[name := t]> (schema df);
     rows := (fun r => <[name := e r]> r) <$> rows df |}.

(** [col(c)] has to resolve against the frame. *)
Definition resolve (c : string) (df : DataFrame) : result DataType :=
  match schema df !! c with
  | Some t => Ok t
  | None => Raise AnalysisException
  end.

(** The notebook's "Data Cleaning" cell:

      df = df.fillna({"energy_consumption":
             df.agg({"energy_consumption": "mean"}).collect()[0][0]})
      df = df.withColumn("timestamp_column", to_timestamp(col("utc_timestamp")))

    The argument of [fillna] is evaluated first. *)
Definition clean (df : DataFrame) : result DataFrame :=
  m ← agg_mean "energy_consumption" df;
  df1 ← fillna "energy_consumption" m df;
  _ ← resolve "utc_timestamp" df1;
  Ok (withColumn "timestamp_column" TimestampType
        (fun r => to_timestamp (cell r "utc_timestamp")) df1).

(** The day, counted from 1970-01-01, on which instant [t] falls in the
    session time zone, and the instant at which a day starts there. *)
Definition local_day (t : Z) : Z := (t + session_zone) / MICROS_PER_DAY.

Definition start_of_day (d : Z) : Z := d * MICROS_PER_DAY - session_zone.

(** [date_trunc("day", e)]: the argument, a timestamp or a string that is
    cast to one, is truncated to midnight in the session time zone. *)
Definition date_trunc_day (v : Value) : Value :=
  match to_timestamp v with
  | VTimestamp t => VTimestamp (start_of_day (local_day t))
  | _ => VNull
  end.

(** [sum] over the cells of a group, for a column of type [t]: NULL when
    no value of the group is non-null.  Longs are added as longs; the
    values of any other column are cast to doubles and added as doubles,
    in the order of the cells. *)
Definition agg_sum (t : DataType) (vs : list Value) : Value :=
  match t with
  | IntegerType =>
      match omap to_long vs with
      | [] => VNull
      | z :: zs => VNum (of_Z (long_sum (z :: zs)))
      end
  | _ =>
      match omap to_double vs with
      | [] => VNull
      | q :: qs => VNum (double_sum (q :: qs))
      end
  end.

(** The type of [sum(e)] for [e] of type [t]. *)
Definition sum_type (t : DataType) : DataType :=
  match t with
  | IntegerType => IntegerType
  | _ => DoubleType
  end.

Definition group (key : string) (k : Value) (l : list (gmap string Value))
  : list (gmap string Value) :=
  filter (fun r => cell r key = k) l.

(** [df.groupBy(key).agg(sum(c).alias(out))]: one row per distinct value of
    the key, NULL included.  The engine leaves the order of the groups
    open; the model lists them by last occurrence. *)
Definition groupBy_sum (key c out : string) (kt ct : DataType)
    (df : DataFrame) : DataFrame :=
  {| schema := <[out := sum_type ct]> {[ key := kt ]};
     rows := (fun k =>
                <[out := agg_sum ct
                           ((fun r => cell r c) <$> group key k (rows df))]>
                  {[ key := k ]})
             <$> remove_dups (column key df) |}.

(** The notebook's "Time Series Analysis" cell:

      daily_consumption =
        df.withColumn("date", date_trunc("day", col("timestamp_column")))
          .groupBy("date")
          .agg(sum("energy_consumption").alias("total_daily_consumption"))

    [date_trunc] takes a timestamp, or a string that it casts to one;
    [sum] takes a column of any of the four types. *)
Definition daily_consumption (df : DataFrame) : result DataFrame :=
  tt ← resolve "timestamp_column" df;
  _ ← match tt with
      | StringType | TimestampType => Ok ()
      | IntegerType | DoubleType => Raise AnalysisException
      end;
  let df1 := withColumn "date" TimestampType
               (fun r => date_trunc_day (cell r "timestamp_column")) df in
  ct ← resolve "energy_consumption" df1;
  Ok (groupBy_sum "date" "energy_consumption" "total_daily_consumption"
        TimestampType ct df1).

End Spark.

(** ** A concrete engine

    Every general statement below holds for any [Engine].  The examples
    are run on the engine defined here, which follows Spark's casts
    ([DateTimeUtils.stringToTimestamp], and the JVM's [Double.parseDouble]
    and [Double.toString] behind the casts between strings and doubles) on
    the spellings that can be read without the time zone database and
    without the clock:

    - timestamps: white space around the string, [yyyy] (four to six
      digits, with an optional sign), [yyyy-m], [yyyy-m-d], then after [T]
      or a space [h], [h:m] or [h:m:s] with one or two digits each, a
      fraction of a second of which six digits are kept, and after the
      seconds a zone: [Z], an offset [+h], [+hh], [+h:m], [+hh:mm],
      [+hhmm], [+hh:mm:ss] or [+hhmmss] of at most 18 hours, [UTC], [GMT]
      or [UT] alone or followed by such an offset, [EST], [MST] or [HST];
    - numbers: an optional sign, digits with an optional point, an optional
      exponent and an optional suffix [f] or [d].

    A zone given by a region name, a time without a date (which the engine
    reads on the current day), hexadecimal numbers and the literals for
    NaN and the infinities are not covered: on these the functions below
    answer [None], which is not the engine's answer; nor is a decimal
    beyond the range of the doubles, which the engine reads as an
    infinity. *)

Module Iso8601.

Definition digit (a : ascii) : option Z :=
  let n := Z.of_N (N_of_ascii a) in
  if (48 <=? n) && (n <=? 57) then Some (n - 48) else None.

(** The decimal digits at the head of [s]: their value after [acc], their
    number after [n], and the rest of the string. *)
Fixpoint digits (s : string) (acc : Z) (n : nat) : Z * nat * string :=
  match s with
  | EmptyString => (acc, n, s)
  | String a s' =>
      match digit a with
      | Some d => digits s' (10 * acc + d) (S n)
      | None => (acc, n, s)
      end
  end.

(** A segment of [lo] to [hi] digits. *)
Definition segment (lo hi : nat) (s : string) : option (Z * string) :=
  let '(v, n, rest) := digits s 0 0 in
  if (lo <=? n)%nat && (n <=? hi)%nat then Some (v, rest) else None.

(** Java's [Character.isWhitespace] on ASCII, and the characters
    [String.trim] removes. *)
Definition is_whitespace (a : ascii) : bool :=
  let n := Z.of_N (N_of_ascii a) in
  ((9 <=? n) && (n <=? 13)) || ((28 <=? n) && (n <=? 32)).

Definition is_blank (a : ascii) : bool := Z.of_N (N_of_ascii a) <=? 32.

Fixpoint drop_while (p : ascii -> bool) (s : string) : string :=
  match s with
  | EmptyString => EmptyString
  | String a s' => if p a then drop_while p s' else s
  end.

Definition trim_with (p : ascii -> bool) (s : string) : string :=
  String.rev (drop_while p (String.rev (drop_while p s))).

Definition is_leap (y : Z) : bool :=
  ((y mod 4 =? 0) && negb (y mod 100 =? 0)) || (y mod 400 =? 0).

Definition days_in_month (y m : Z) : Z :=
  if m =? 2 then (if is_leap y then 29 else 28)
  else if (m =? 4) || (m =? 6) || (m =? 9) || (m =? 11) then 30
  else 31.

(** Days from 1970-01-01 to the given date of the proleptic Gregorian
    calendar. *)
Definition days_from_civil (y m d : Z) : Z :=
  let y' := if m <=? 2 then y - 1 else y in
  let era := y' / 400 in
  let yoe := y' - era * 400 in
  let mp := if m <=? 2 then m + 9 else m - 3 in
  let doy := (153 * mp + 2) / 5 + d - 1 in
  let doe := yoe * 365 + yoe / 4 - yoe / 100 + doy in
  era * 146097 + doe - 719468.

(** What is written in a timestamp string: a date, a time of day (in
    microseconds) and, when the string carries one, the offset from UTC
    (in seconds east). *)
Record Written : Type := {
  year : Z; month : Z; day : Z;
  micro_of_day : Z;
  offset : option Z
}.

(** An offset of at most 18 hours. *)
Definition offset_seconds (sign h m s : Z) : option Z :=
  if (h <=? 18) && (m <=? 59) && (s <=? 59)
     && ((h <? 18) || ((m =? 0) && (s =? 0)))
  then Some (sign * (h * 3600 + m * 60 + s))
  else None.

(** [+h], [+hh], [+hhmm], [+hhmmss], [+h:m], [+hh:mm] and [+hh:mm:ss],
    with either sign; one digit is accepted for the hours before a colon
    and for the minutes at the end. *)
Definition parse_offset (s : string) : option Z :=
  match s with
  | EmptyString => None
  | String a r =>
      sign ← (if decide (a = "+"%char) then Some 1
              else if decide (a = "-"%char) then Some (-1) else None);
      let '(v, n, r1) := digits r 0 0 in
      match r1 with
      | EmptyString =>
          match n with
          | 1%nat | 2%nat => offset_seconds sign v 0 0
          | 4%nat => offset_seconds sign (v / 100) (v mod 100) 0
          | 6%nat =>
              offset_seconds sign (v / 10000) (v / 100 mod 100) (v mod 100)
          | _ => None
          end
      | String b r2 =>
          if decide (b = ":"%char) then
            if (1 <=? n)%nat && (n <=? 2)%nat then
              let '(m, k, r3) := digits r2 0 0 in
              match r3 with
              | EmptyString =>
                  if (1 <=? k)%nat && (k <=? 2)%nat
                  then offset_seconds sign v m 0 else None
              | String c r4 =>
                  if decide (c = ":"%char) then
                    let '(sec, j, r5) := digits r4 0 0 in
                    if (k =? 2)%nat && (j =? 2)%nat
                    then (if decide (r5 = EmptyString)
                          then offset_seconds sign v m sec else None)
                    else None
                  else None
              end
            else None
          else None
      end
  end.

Definition starts_with_sign (s : string) : bool :=
  match s with
  | String a _ => bool_decide (a = "+"%char) || bool_decide (a = "-"%char)
  | EmptyString => false
  end.

(** A prefix [UTC], [GMT] or [UT] stands alone or is followed by an
    offset. *)
Definition after_prefix (rest : string) : option Z :=
  if decide (rest = EmptyString) then Some 0
  else if starts_with_sign rest then parse_offset rest
  else None.

Fixpoint take_string (n : nat) (s : string) : string :=
  match n, s with
  | S n', String a s' => String a (take_string n' s')
  | _, _ => EmptyString
  end.

Fixpoint drop_string (n : nat) (s : string) : string :=
  match n, s with
  | S n', String _ s' => drop_string n' s'
  | _, _ => s
  end.

Definition strip_prefix (p s : string) : option string :=
  if String.prefix p s then Some (drop_string (String.length p) s) else None.

(** The zone of a timestamp string, in seconds east of UTC. *)
Definition parse_zone (z : string) : option Z :=
  let id := trim_with is_blank z in
  if decide (id = "Z") then Some 0
  else if decide (id = "EST") then Some (-18000)
  else if decide (id = "MST") then Some (-25200)
  else if decide (id = "HST") then Some (-36000)
  else if starts_with_sign id then parse_offset id
  else match strip_prefix "UTC" id with
       | Some rest => after_prefix rest
       | None =>
           match strip_prefix "GMT" id with
           | Some rest => after_prefix rest
           | None =>
               match strip_prefix "UT" id with
               | Some rest => after_prefix rest
               | None => None
               end
           end
       end.

(** The digits of a fraction of a second: the first six make the
    microseconds, the others are dropped. *)
Fixpoint fraction (s : string) (kept : nat) (acc : Z) : Z * string :=
  match s with
  | EmptyString => (acc * 10 ^ Z.of_nat (6 - kept), s)
  | String a s' =>
      match digit a with
      | Some d =>
          if (kept <? 6)%nat then fraction s' (S kept) (10 * acc + d)
          else fraction s' kept acc
      | None => (acc * 10 ^ Z.of_nat (6 - kept), s)
      end
  end.

(** The time of day and the zone: what follows [T] or the space. *)
Definition parse_time (s : string) : option (Z * option Z) :=
  let time (h mi se us : Z) (zone : option Z) : option (Z * option Z) :=
    if (h <=? 23) && (mi <=? 59) && (se <=? 59)
    then Some (((h * 3600 + mi * 60 + se) * MICROS_PER_SECOND + us), zone)
    else None in
  let zoned (h mi se us : Z) (z : string) : option (Z * option Z) :=
    if decide (z = EmptyString) then time h mi se us None
    else off ← parse_zone z; time h mi se us (Some off) in
  '(h, s1) ← segment 1 2 s;
  match s1 with
  | EmptyString => time h 0 0 0 None
  | String a s2 =>
      if decide (a = ":"%char) then
        '(mi, s3) ← segment 1 2 s2;
        match s3 with
        | EmptyString => time h mi 0 0 None
        | String b s4 =>
            if decide (b = ":"%char) then
              '(se, s5) ← segment 1 2 s4;
              match s5 with
              | EmptyString => time h mi se 0 None
              | String c s6 =>
                  if decide (c = "."%char) then
                    let '(us, s7) := fraction s6 0 0 in zoned h mi se us s7
                  else zoned h mi se 0 s5
              end
            else None
        end
      else None
  end.

Definition parse (s : string) : option Written :=
  let s0 := trim_with is_whitespace s in
  let '(sign, s1) :=
    match s0 with
    | String a r =>
        if decide (a = "-"%char) then (-1, r)
        else if decide (a = "+"%char) then (1, r) else (1, s0)
    | EmptyString => (1, s0)
    end in
  let written (y mo d : Z) (time : Z * option Z) : option Written :=
    if (1 <=? mo) && (mo <=? 12) && (1 <=? d) && (d <=? days_in_month y mo)
    then Some {| year := y; month := mo; day := d;
                 micro_of_day := time.1; offset := time.2 |}
    else None in
  '(y0, s2) ← segment 4 6 s1;
  let y := sign * y0 in
  match s2 with
  | EmptyString => written y 1 1 (0, None)
  | String a s3 =>
      if decide (a = "-"%char) then
        '(mo, s4) ← segment 1 2 s3;
        match s4 with
        | EmptyString => written y mo 1 (0, None)
        | String b s5 =>
            if decide (b = "-"%char) then
              '(d, s6) ← segment 1 2 s5;
              match s6 with
              | EmptyString => written y mo d (0, None)
              | String c s7 =>
                  if bool_decide (c = "T"%char) || bool_decide (c = " "%char)
                  then time ← parse_time s7; written y mo d time
                  else None
              end
            else None
        end
      else None
  end.

(** The instant a written timestamp denotes.  A string without an offset
    is read in the session time zone [zone] (microseconds east of UTC). *)
Definition instant (zone : Z) (w : Written) : Z :=
  let local := days_from_civil (year w) (month w) (day w) * MICROS_PER_DAY
               + micro_of_day w in
  match offset w with
  | Some off => local - off * MICROS_PER_SECOND
  | None => local - zone
  end.

(** The cast of a string to a timestamp: the instant written, when it is
    one a timestamp can hold. *)
Definition timestamp (zone : Z) (s : string) : option Z :=
  w ← parse s;
  let t := instant zone w in
  if (LONG_MIN <=? t) && (t <=? LONG_MAX) then Some t else None.

(** Midnight of the written date, at the written offset: the start of the
    calendar day the string itself names. *)
Definition written_midnight (zone : Z) (w : Written) : Z :=
  let local := days_from_civil (year w) (month w) (day w) * MICROS_PER_DAY in
  match offset w with
  | Some off => local - off * MICROS_PER_SECOND
  | None => local - zone
  end.

(** The written offset is the session time zone's, or none is written. *)
Definition in_session_zone (zone : Z) (w : Written) : Prop :=
  match offset w with
  | Some off => off * MICROS_PER_SECOND = zone
  | None => True
  end.

(** *** Doubles and strings *)

Definition power_of_ten (p : Z) : Qc :=
  if 0 <=? p then of_Z (10 ^ p) else Qcinv (of_Z (10 ^ (- p))).

Definition less (x y : Qc) : bool :=
  Qnum x * Z.pos (Qden y) <? Qnum y * Z.pos (Qden x).

(** An exponent part: nothing, or [e] or [E], an optional sign and at
    least one digit. *)
Definition parse_exponent (s : string) : option (Z * string) :=
  match s with
  | String a r =>
      if bool_decide (a = "e"%char) || bool_decide (a = "E"%char) then
        let '(sign, r1) :=
          match r with
          | String b r' =>
              if decide (b = "-"%char) then (-1, r')
              else if decide (b = "+"%char) then (1, r') else (1, r)
          | EmptyString => (1, r)
          end in
        let '(e, n, r2) := digits r1 0 0 in
        if decide (n = O) then None else Some (sign * e, r2)
      else Some (0, s)
  | EmptyString => Some (0, s)
  end.

Definition is_float_suffix (a : ascii) : bool :=
  bool_decide (a = "f"%char) || bool_decide (a = "F"%char)
  || bool_decide (a = "d"%char) || bool_decide (a = "D"%char).

(** The cast of a string to a double: the double nearest to the decimal
    number written. *)
Definition parse_decimal (s : string) : option Qc :=
  let s0 := trim_with is_blank s in
  let '(sign, s1) :=
    match s0 with
    | String a r =>
        if decide (a = "-"%char) then (-1, r)
        else if decide (a = "+"%char) then (1, r) else (1, s0)
    | EmptyString => (1, s0)
    end in
  let '(i, n, s2) := digits s1 0 0 in
  let '(f, k, s3) :=
    match s2 with
    | String a r => if decide (a = "."%char) then digits r i 0 else (i, O, s2)
    | EmptyString => (i, O, s2)
    end in
  if decide ((n + k)%nat = O) then None
  else
    '(e, s4) ← parse_exponent s3;
    let s5 := match s4 with
              | String a EmptyString => if is_float_suffix a then EmptyString else s4
              | _ => s4
              end in
    if decide (s5 = EmptyString)
    then Some (round64 (Qcmult (of_Z (sign * f))
                               (power_of_ten (e - Z.of_nat k))))
    else None.

(** The exponent [p] with [10 ^ p <= q < 10 ^ (p + 1)], for [0 < q]. *)
Definition decimal_exponent (q : Qc) : Z :=
  let p := binade (Qnum q) (Z.pos (Qden q)) * 30103 / 100000 in
  if less q (power_of_ten p) then p - 1
  else if negb (less q (power_of_ten (p + 1))) then p + 1
  else p.

(** A shortest decimal that is read back as the double [q], for [0 < q],
    as the integer its digits make and the exponent of its last digit.
    Among the decimals of [n] digits the two that enclose [q] are tried,
    the nearer one first; [Double.toString] starts at two digits. *)
Fixpoint shortest_decimal (fuel n : nat) (q : Qc) (p : Z) : Z * Z :=
  let scale := power_of_ten (p - Z.of_nat n + 1) in
  let x := Qcdiv q scale in
  let lo := Qnum x / Z.pos (Qden x) in
  let reads c := bool_decide (round64 (Qcmult (of_Z c) scale) = q) in
  let nearer := round_half_even (Qnum x) (Z.pos (Qden x)) in
  let other := if nearer =? lo then lo + 1 else lo in
  let found c := (c, p - Z.of_nat n + 1) in
  match fuel with
  | O => found nearer
  | S fuel' =>
      if reads nearer then found nearer
      else if reads other then found other
      else shortest_decimal fuel' (S n) q p
  end.

Fixpoint strip_zeros (fuel : nat) (c e : Z) : Z * Z :=
  match fuel with
  | O => (c, e)
  | S fuel' =>
      if (c mod 10 =? 0) && negb (c =? 0) then strip_zeros fuel' (c / 10) (e + 1)
      else (c, e)
  end.

Fixpoint zeros (n : nat) : string :=
  match n with
  | O => EmptyString
  | S n' => String "0"%char (zeros n')
  end.

Definition or_zero (s : string) : string :=
  if decide (s = EmptyString) then "0" else s.

(** The cast of a double to a string, as [Double.toString] writes it:
    plain between 0.001 and 10000000, with an exponent otherwise, and in
    both cases with at least one digit after the point. *)
Definition print_decimal (q : Qc) : string :=
  if decide (q = of_Z 0) then "0.0"
  else
    let a := if less q (of_Z 0) then Qcopp q else q in
    let '(c0, e0) := shortest_decimal 16 2 a (decimal_exponent a) in
    let '(c, e) := strip_zeros 20 c0 e0 in
    let ds := pretty c in
    let len := Z.of_nat (String.length ds) in
    let first := e + len - 1 in
    let body :=
      if (-3 <=? first) && (first <? 7) then
        if 0 <=? e then ds +:+ zeros (Z.to_nat e) +:+ ".0"
        else if 0 <=? first then
          take_string (Z.to_nat (first + 1)) ds +:+ "."
          +:+ drop_string (Z.to_nat (first + 1)) ds
        else "0." +:+ zeros (Z.to_nat (- first - 1)) +:+ ds
      else
        take_string 1 ds +:+ "." +:+ or_zero (drop_string 1 ds)
        +:+ "E" +:+ pretty first in
    (if less q (of_Z 0) then "-" else EmptyString) +:+ body.

End Iso8601.

(** The engine with these casts and session time zone [zone]. *)
Definition iso_engine (zone : Z) : Engine :=
  {| string_to_double := Iso8601.parse_decimal;
     double_to_string := Iso8601.print_decimal;
     string_to_timestamp := Iso8601.timestamp zone;
     session_zone := zone |}.

Definition UTC : Z := 0.

Definition utc_engine : Engine := iso_engine UTC.

(** ** Vocabulary of the properties *)

Section Vocabulary.

Context {E : Engine}.

(** The instant a cell denotes once cast to a timestamp, and the day of the
    session time zone it falls on. *)
Definition instant_of (v : Value) : option Z :=
  match to_timestamp v with
  | VTimestamp t => Some t
  | _ => None
  end.

Definition day_of (v : Value) : option Z := local_day <$> instant_of v.

(** The number a cell holds, any other cell counting for nothing, and the
    exact sum of a column. *)
Definition number (v : Value) : Qc :=
  match v with
  | VNum q => q
  | _ => of_Z 0
  end.

Definition column_sum (c : string) (df : DataFrame) : Qc :=
  sum_Qc (number <$> column c df).

(** The same for a column of integers, in [Z]. *)
Definition long_of (v : Value) : Z := default 0 (to_long v).

Definition integer_sum (c : string) (df : DataFrame) : Z :=
  sum_Z (long_of <$> column c df).

(** The type the schema gives [energy_consumption]. *)
Definition energy_type (df : DataFrame) : DataType :=
  default DoubleType (schema df !! "energy_consumption").

(** The key under which the aggregation files a record, and the entry it
    makes for key [k] out of the records [l], for an [energy_consumption]
    column of type [ct]. *)
Definition date_key (r : gmap string Value) : Value :=
  date_trunc_day (cell r "timestamp_column").

Definition daily_entry (ct : DataType) (l : list (gmap string Value))
    (k : Value) : gmap string Value :=
  <["total_daily_consumption" :=
      agg_sum ct ((fun r => cell r "energy_consumption")
                  <$> filter (fun r => date_key r = k) l)]>
    {[ "date" := k ]}.

(** The frame the aggregation makes of [df]: one entry for each key, and
    the two columns of the entries. *)
Definition daily_frame (ct : DataType) (df : DataFrame) : DataFrame :=
  {| schema := <["total_daily_consumption" := sum_type ct]>
                 {[ "date" := TimestampType ]};
     rows := daily_entry ct (rows df) <$> remove_dups (date_key <$> rows df) |}.

(** A record falls on day [d]; an entry of the output is the entry of day
    [d]. *)
Definition falls_on (d : Z) (r : gmap string Value) : Prop :=
  day_of (cell r "timestamp_column") = Some d.

Definition entry_of (d : Z) (e : gmap string Value) : Prop :=
  day_of (cell e "date") = Some d.

Global Instance falls_on_dec (d : Z) (r : gmap string Value) :
  Decision (falls_on d r).
Proof. unfold falls_on. apply _. Defined.

Global Instance entry_of_dec (d : Z) (e : gmap string Value) :
  Decision (entry_of d e).
Proof. unfold entry_of. apply _. Defined.

(** A value is missing when it is SQL NULL. *)
Definition missing (r : gmap string Value) : Prop :=
  cell r "energy_consumption" = VNull.

(** The non-missing values of [energy_consumption], as the aggregate sees
    them. *)
Definition present_values (df : DataFrame) : list Qc :=
  omap to_double (column "energy_consumption" df).

(** The frames the cleaning cell is written for: both columns resolve, and
    [energy_consumption] is numeric. *)
Definition numeric (t : DataType) : Prop := t = IntegerType \/ t = DoubleType.

Definition raw_frame (df : DataFrame) : Prop :=
  (exists t, schema df !! "energy_consumption" = Some t /\ numeric t) /\
  is_Some (schema df !! "utc_timestamp").

(** At least one record carries a value. *)
Definition some_value_present (df : DataFrame) : Prop :=
  exists r q, r ∈ rows df /\ cell r "energy_consumption" = VNum q.

(** The row the cleaning cell makes of [r] when the replacement is [v]. *)
Definition clean_row (v : Value) (r : gmap string Value) : gmap string Value :=
  let r1 := fill_row "energy_consumption" v r in
  <["timestamp_column" := to_timestamp (cell r1 "utc_timestamp")]> r1.

(** The frame the cell computes when the mean is [q] and the column has
    type [t]. *)
Definition cleaned (q : Qc) (t : DataType) (df : DataFrame) : DataFrame :=
  {| schema := <["timestamp_column" := TimestampType]> (schema df);
     rows := clean_row (cast_double q t) <$> rows df |}.

(** Already clean: no value is missing and the parsed column is there,
    holding the timestamp of each row. *)
Definition already_clean (df : DataFrame) : Prop :=
  raw_frame df /\
  schema df !! "timestamp_column" = Some TimestampType /\
  Forall (fun r =>
            (exists q, r !! "energy_consumption" = Some (VNum q)) /\
            r !! "timestamp_column"
              = Some (to_timestamp (cell r "utc_timestamp")))
         (rows df).

End Vocabulary.

(** ** Example data *)

Definition record (ts : string) (v : Value) : gmap string Value :=
  <["utc_timestamp" := VString ts]> {[ "energy_consumption" := v ]}.

Definition VInt (z : Z) : Value := VNum (of_Z z).

(** The double the CSV reader makes of the decimal [n / 10 ^ k]. *)
Definition decimal (n : Z) (k : nat) : Qc :=
  round64 (Qcdiv (of_Z n) (of_Z (10 ^ Z.of_nat k))).

Definition raw_schema (t : DataType) : gmap string DataType :=
  <["utc_timestamp" := StringType]> {[ "energy_consumption" := t ]}.

(** A CSV whose [energy_consumption] cells are [10], empty and [21]: the
    reader infers an integer column. *)
Definition integer_frame : DataFrame :=
  {| schema := raw_schema IntegerType;
     rows := [ record "2020-01-01T00:00:00Z" (VInt 10);
               record "2020-01-01T12:00:00Z" VNull;
               record "2020-01-02T00:00:00Z" (VInt 21) ] |}.

(** The same cells, [10.0], empty and [21.0]: a double column. *)
Definition double_frame : DataFrame :=
  {| schema := raw_schema DoubleType; rows := rows integer_frame |}.

(** One row carries a timestamp no cast accepts. *)
Definition malformed_frame : DataFrame :=
  {| schema := raw_schema DoubleType;
     rows := [ record "2020-01-01T00:00:00Z" (VInt 10);
               record "yesterday" (VInt 20);
               record "2020-01-02T00:00:00Z" (VInt 5) ] |}.

(** Every value is missing. *)
Definition all_missing_frame : DataFrame :=
  {| schema := raw_schema DoubleType;
     rows := [ record "2020-01-01T00:00:00Z" VNull ] |}.

(** A header and no row, the parsed column included. *)
Definition header_only_frame : DataFrame :=
  {| schema := <["timestamp_column" := TimestampType]> (raw_schema DoubleType);
     rows := [] |}.

(** The records of the scenario, as the cleaning cell leaves them. *)
Definition tidy_record (ts : string) (t : Z) (v : Value) : gmap string Value :=
  <["timestamp_column" := VTimestamp t]> (record ts v).

Definition tidy_frame : DataFrame :=
  {| schema := <["timestamp_column" := TimestampType]> (raw_schema DoubleType);
     rows := [ tidy_record "2020-01-01T00:00:00Z" 1577836800000000 (VInt 10);
               tidy_record "2020-01-01T12:00:00Z" 1577880000000000 (VInt 20);
               tidy_record "2020-01-02T00:00:00Z" 1577923200000000 (VInt 5) ] |}.

(** The same records with the values read as integers. *)
Definition tidy_integer_frame : DataFrame :=
  {| schema := <["timestamp_column" := TimestampType]> (raw_schema IntegerType);
     rows := rows tidy_frame |}.

(** The input already has a column called [timestamp_column]. *)
Definition clash_frame : DataFrame :=
  {| schema := <["timestamp_column" := StringType]> (raw_schema DoubleType);
     rows := [ <["timestamp_column" := VString "kept?"]>
                 (record "2020-01-01T00:00:00Z" (VInt 10)) ] |}.

(** A record stamped half past midnight, two hours east of UTC. *)
Definition offset_frame : DataFrame :=
  {| schema := raw_schema DoubleType;
     rows := [ record "2020-01-02T00:30:00+02:00" (VInt 10) ] |}.

(** The mean the cleaning cell collects on [df], zero standing for
    [None]. *)
Definition mean_of {E : Engine} (df : DataFrame) : Qc :=
  default (of_Z 0) (mean (present_values df)).

Definition scenario_frame : DataFrame :=
  {| schema := raw_schema IntegerType;
     rows := [ record "2020-01-01T00:00:00Z" (VInt 10);
               record "2020-01-01T12:00:00Z" (VInt 20);
               record "2020-01-02T00:00:00Z" (VInt 5) ] |}.

(** Doubles that are no binary fractions: 0.3 on one day, 0.2 and 0.1 on
    the next. *)
Definition tenths_frame : DataFrame :=
  {| schema := raw_schema DoubleType;
     rows := [ record "2020-01-01T00:00:00Z" (VNum (decimal 3 1));
               record "2020-01-02T00:00:00Z" (VNum (decimal 2 1));
               record "2020-01-02T12:00:00Z" (VNum (decimal 1 1)) ] |}.

(** Two longs on one day whose sum is beyond the largest long. *)
Definition overflow_frame : DataFrame :=
  {| schema := raw_schema IntegerType;
     rows := [ record "2020-01-01T00:00:00Z" (VInt 9223372036854775807);
               record "2020-01-01T12:00:00Z" (VInt 1) ] |}.

(** Longs that are no doubles: 2^53 + 1 twice, and a missing value. *)
Definition large_frame : DataFrame :=
  {| schema := raw_schema IntegerType;
     rows := [ record "2020-01-01T00:00:00Z" (VInt 9007199254740993);
               record "2020-01-01T12:00:00Z" VNull;
               record "2020-01-02T00:00:00Z" (VInt 9007199254740993) ] |}.

(** A column the reader took for strings, one cell being no number. *)
Definition words_frame : DataFrame :=
  {| schema := raw_schema StringType;
     rows := [ record "2020-01-01T00:00:00Z" (VString "10");
               record "2020-01-01T06:00:00Z" (VString "n/a");
               record "2020-01-01T12:00:00Z" VNull;
               record "2020-01-02T00:00:00Z" (VString "21") ] |}.

(** A column the reader took for timestamps: 10 s and 21 s after the
    epoch, and a missing value. *)
Definition instants_frame : DataFrame :=
  {| schema := raw_schema TimestampType;
     rows := [ record "2020-01-01T00:00:00Z" (VTimestamp 10000000);
               record "2020-01-01T12:00:00Z" VNull;
               record "2020-01-02T00:00:00Z" (VTimestamp 21000000) ] |}.

Module Examples.

Import Fetcher.

Definition body : list byte := [x75; x74; x63].

Definition reply (status : Z) : string -> result Response :=
  fun _ => Ok {| status_code := status; content := body |}.

Definition unreachable : string -> result Response :=
  fun _ => Raise (RequestException "ConnectionError").

(** A file system that stores whatever it is given. *)
Definition world (net : string -> result Response) : World :=
  {| network := net; storage := fun _ _ => Stored; files := ∅;
     console := [] |}.

(** A file system in which the directory [missing] does not exist. *)
Definition no_such_directory : Exn := OSError "FileNotFoundError".

Definition world_without_directory (net : string -> result Response) : World :=
  {| network := net;
     storage := fun path _ =>
                  if String.prefix "missing/" path
                  then OpenFails no_such_directory else Stored;
     files := ∅; console := [] |}.

End Examples.

(** ** The loader, and the first cells run in order *)

Section Loader.

Import Fetcher.

(** The engine's CSV reader on the content of a file, with [header=True]
    and [inferSchema=True]. *)
Variable parse_csv : list byte -> result DataFrame.

(** [spark.read.csv(path, header=True, inferSchema=True)]: the path has to
    exist when the reader is built. *)
Definition read_csv (path : string) (w : World) : result DataFrame :=
  match files w !! path with
  | None => Raise AnalysisException
  | Some data => parse_csv data
  end.

(** The fetch cell and the load cell, run in order on the same path; the
    run stops at the first cell that raises. *)
Definition fetch_then_load (url path : string) (w : World)
  : result DataFrame * World :=
  match fetch_energy_data url path w with
  | (Raise e, w') => (Raise e, w')
  | (Ok _, w') => (read_csv path w', w')
  end.

End Loader.

(** ** Types of cells *)

(** A canonical rational is an integer when its denominator is one. *)
Definition integral (q : Qc) : Prop := Qden q = 1%positive.

(** The cell [v] is a value of type [t]; NULL is a value of every type. *)
Definition has_type (t : DataType) (v : Value) : Prop :=
  match v, t with
  | VNull, _ => True
  | VNum q, IntegerType => integral q
  | VNum _, DoubleType => True
  | VString _, StringType => True
  | VTimestamp _, TimestampType => True
  | _, _ => False
  end.

(** Every cell of every column of the schema has the type of its column. *)
Definition well_typed (df : DataFrame) : Prop :=
  forall c t, schema df !! c = Some t ->
    Forall (fun r => has_type t (cell r c)) (rows df).

Section MoreVocabulary.

Context {E : Engine}.

(** The records whose [timestamp_column] is NULL, or does not cast. *)
Definition undated (r : gmap string Value) : Prop :=
  day_of (cell r "timestamp_column") = None.

Global Instance undated_dec (r : gmap string Value) : Decision (undated r).
Proof. unfold undated. apply _. Defined.

(** The cells of [energy_consumption] of the records of [l] that satisfy
    [P], in the order of the records, and their exact sum as integers. *)
Definition energy_where (P : gmap string Value -> Prop)
    `{!forall r, Decision (P r)} (l : list (gmap string Value)) : list Value :=
  (fun r => cell r "energy_consumption") <$> filter P l.

Definition integer_where (P : gmap string Value -> Prop)
    `{!forall r, Decision (P r)} (l : list (gmap string Value)) : Z :=
  sum_Z (long_of <$> energy_where P l).

End MoreVocabulary.

(** * Properties *)

(** ** The fetcher *)

Section FetcherFacts.

Import Fetcher.

(** C4, amended: when the GET yields a response, what the call does is
    decided by the test [status_code == 200] and, on 200, by the file
    system.  On 200 with a destination that can be written, the whole body
    becomes the content of the file, no other file changes, the success
    line is printed and the call returns.  On 200 with a destination that
    cannot be opened, the exception of [open] leaves the call and nothing
    is written or printed; when the write fails after the file was opened,
    the exception leaves the call, the file holds the bytes stored so far
    and nothing is printed.  On any other status, the other statuses of the
    class 2xx included, no file is written, the failure line is printed
    and the call returns. *)
Theorem fetch_on_response (url save_path : string) (w : World)
    (response : Response) :
  network w url = Ok response ->
  let out := fetch_energy_data url save_path w in
  if decide (status_code response = 200) then
    match storage w save_path (content response) with
    | Stored =>
        out.1 = Ok tt /\
        files out.2 !! save_path = Some (content response) /\
        (forall p, p <> save_path -> files out.2 !! p = files w !! p) /\
        console out.2 = console w ++ ["Data saved to " +:+ save_path]
    | OpenFails e => out = (Raise e, w)
    | WriteFails e kept =>
        out.1 = Raise e /\
        files out.2 !! save_path = Some (take kept (content response)) /\
        (forall p, p <> save_path -> files out.2 !! p = files w !! p) /\
        console out.2 = console w
    end
  else
    out.1 = Ok tt /\
    files out.2 = files w /\
    console out.2 = console w ++ ["Failed to download data"].
Proof.
  intros Hget out. subst out. unfold fetch_energy_data. rewrite Hget.
  destruct (decide (status_code response = 200)) as [H200 | Hnot].
  - rewrite H200. change (200 =? 200) with true. cbv iota.
    destruct (storage w save_path (content response)) as [| e | e kept].
    + simpl. split; [reflexivity |].
      split; [apply lookup_insert_eq |].
      split; [| reflexivity].
      intros p Hp. apply lookup_insert_ne. congruence.
    + reflexivity.
    + simpl. split; [reflexivity |].
      split; [apply lookup_insert_eq |].
      split; [| reflexivity].
      intros p Hp. apply lookup_insert_ne. congruence.
  - apply Z.eqb_neq in Hnot. rewrite Hnot. simpl. auto.
Qed.

(** C4, on a reply with status 404. *)
Lemma fetch_on_response_404 :
  let w := Examples.world (Examples.reply 404) in
  network w dataset_url = Ok {| status_code := 404; content := Examples.body |} /\
  (fetch_energy_data dataset_url "energy_data.csv" w).1 = Ok tt /\
  files (fetch_energy_data dataset_url "energy_data.csv" w).2 = ∅ /\
  console (fetch_energy_data dataset_url "energy_data.csv" w).2
    = ["Failed to download data"].
Proof.
  intros w. split; [reflexivity |].
  exact (fetch_on_response dataset_url "energy_data.csv" w
           {| status_code := 404; content := Examples.body |} eq_refl).
Defined.

(** C4, refuted.  A reply with status 200 whose destination lies in a
    directory that does not exist: the call raises the error of [open] and
    writes nothing.  And a reply with status 204, a success status: the
    body is not written and the failure line is printed. *)
Lemma fetch_success_without_file :
  let w := Examples.world_without_directory (Examples.reply 200) in
  let w' := Examples.world (Examples.reply 204) in
  (network w dataset_url = Ok {| status_code := 200; content := Examples.body |} /\
   success_status 200 /\
   fetch_energy_data dataset_url "missing/energy_data.csv" w
   = (Raise Examples.no_such_directory, w) /\
   files w !! "missing/energy_data.csv" = None) /\
  (network w' dataset_url = Ok {| status_code := 204; content := Examples.body |} /\
   success_status 204 /\
   (fetch_energy_data dataset_url "energy_data.csv" w').1 = Ok tt /\
   files (fetch_energy_data dataset_url "energy_data.csv" w').2
     !! "energy_data.csv" = None /\
   console (fetch_energy_data dataset_url "energy_data.csv" w').2
   = ["Failed to download data"]).
Proof.
  intros w w'. split.
  - split; [reflexivity |]. split; [unfold success_status; lia |].
    split; reflexivity.
  - split; [reflexivity |]. split; [unfold success_status; lia |].
    split; [reflexivity |]. split; reflexivity.
Qed.

(** The same replies with a destination that can be written and with
    status 200: the body is the content of the file. *)
Example fetch_stores_body :
  let w := Examples.world (Examples.reply 200) in
  (fetch_energy_data dataset_url "energy_data.csv" w).1 = Ok tt /\
  files (fetch_energy_data dataset_url "energy_data.csv" w).2
    !! "energy_data.csv" = Some Examples.body /\
  console (fetch_energy_data dataset_url "energy_data.csv" w).2
  = ["Data saved to energy_data.csv"].
Proof. intros w. split; [reflexivity |]. split; reflexivity. Qed.

(** C10: when the GET raises before any response is obtained, the call
    raises the same exception and leaves files and console as they were.
    The call returns only when a response was obtained; with a response it
    can still raise, but only on status 200 and with the exception of the
    file system. *)
Theorem fetch_propagates_request_failure (url save_path : string) (w : World)
    (e : Exn) :
  (network w url = Raise e ->
   fetch_energy_data url save_path w = (Raise e, w)) /\
  ((fetch_energy_data url save_path w).1 = Ok tt ->
   exists response, network w url = Ok response) /\
  ((fetch_energy_data url save_path w).1 = Raise e ->
   network w url = Raise e \/
   exists response,
     network w url = Ok response /\ status_code response = 200 /\
     (storage w save_path (content response) = OpenFails e \/
      exists kept,
        storage w save_path (content response) = WriteFails e kept)).
Proof.
  unfold fetch_energy_data. split; [| split].
  - intros ->. reflexivity.
  - destruct (network w url) as [response | e']; [by eexists | discriminate].
  - destruct (network w url) as [response | e'].
    + destruct (status_code response =? 200) eqn:H200; [| discriminate].
      apply Z.eqb_eq in H200.
      destruct (storage w save_path (content response)) as [| e' | e' kept]
        eqn:Hstore; [discriminate | |];
        simpl; intros [= ->]; right; exists response;
        (split; [reflexivity |]); (split; [exact H200 |]);
        [by left | right; by exists kept].
    + simpl. intros [= ->]. by left.
Qed.

(** C10, on a host that cannot be reached. *)
Lemma fetch_propagates_request_failure_unreachable :
  let w := Examples.world Examples.unreachable in
  network w dataset_url = Raise (RequestException "ConnectionError") /\
  fetch_energy_data dataset_url "energy_data.csv" w
    = (Raise (RequestException "ConnectionError"), w).
Proof.
  intros w. split; [reflexivity |].
  apply (fetch_propagates_request_failure dataset_url "energy_data.csv" w
           (RequestException "ConnectionError")).
  reflexivity.
Defined.

End FetcherFacts.

(** ** Cells and rows *)

Section RowFacts.

Context {E : Engine}.

Lemma cell_insert_eq (r : gmap string Value) (c : string) (v : Value) :
  cell (<[c := v]> r) c = v.
Proof. unfold cell. by rewrite lookup_insert_eq. Qed.

Lemma cell_insert_ne (r : gmap string Value) (c c' : string) (v : Value) :
  c <> c' -> cell (<[c := v]> r) c' = cell r c'.
Proof. intros Hne. unfold cell. by rewrite lookup_insert_ne. Qed.

Lemma lookup_fill_row_ne (r : gmap string Value) (c c' : string) (v : Value) :
  c <> c' -> fill_row c v r !! c' = r !! c'.
Proof.
  intros Hne. unfold fill_row.
  destruct (cell r c); try reflexivity. by rewrite lookup_insert_ne.
Qed.

Lemma cell_fill_row_ne (r : gmap string Value) (c c' : string) (v : Value) :
  c <> c' -> cell (fill_row c v r) c' = cell r c'.
Proof. intros Hne. unfold cell. by rewrite lookup_fill_row_ne. Qed.

Lemma fill_row_present (r : gmap string Value) (c : string) (v : Value) :
  cell r c <> VNull -> fill_row c v r = r.
Proof. intros Hv. unfold fill_row. by destruct (cell r c). Qed.

Lemma cell_fill_row_null (r : gmap string Value) (c : string) (v : Value) :
  cell r c = VNull -> cell (fill_row c v r) c = v.
Proof. intros Hv. unfold fill_row. rewrite Hv. apply cell_insert_eq. Qed.

Lemma lookup_clean_row_other (v : Value) (r : gmap string Value) (c : string) :
  c <> "energy_consumption" -> c <> "timestamp_column" ->
  clean_row v r !! c = r !! c.
Proof.
  intros Hec Htc. unfold clean_row.
  rewrite lookup_insert_ne by congruence.
  apply lookup_fill_row_ne. congruence.
Qed.

Lemma lookup_clean_row_energy (v : Value) (r : gmap string Value) :
  clean_row v r !! "energy_consumption"
  = fill_row "energy_consumption" v r !! "energy_consumption".
Proof. unfold clean_row. by rewrite lookup_insert_ne. Qed.

Lemma lookup_clean_row_timestamp (v : Value) (r : gmap string Value) :
  clean_row v r !! "timestamp_column"
  = Some (to_timestamp (cell r "utc_timestamp")).
Proof.
  unfold clean_row. rewrite lookup_insert_eq.
  by rewrite cell_fill_row_ne.
Qed.

End RowFacts.

(** ** The cleaning cell, case by case *)

Section CleanFacts.

Context {E : Engine}.

Lemma mean_None (l : list Qc) : mean l = None <-> l = [].
Proof. destruct l; simpl; split; congruence. Qed.

Lemma present_values_nonempty (df : DataFrame) (r : gmap string Value) (q : Qc) :
  r ∈ rows df -> cell r "energy_consumption" = VNum q ->
  present_values df <> [].
Proof.
  intros Hin Hq Hnil.
  assert (Hel : round64 q ∈ present_values df).
  { unfold present_values, column. apply list_elem_of_omap.
    exists (VNum q). split; [| reflexivity].
    apply list_elem_of_fmap. exists r. by rewrite Hq. }
  rewrite Hnil in Hel. by apply not_elem_of_nil in Hel.
Qed.

Lemma clean_Ok_inv (df df' : DataFrame) :
  clean df = Ok df' ->
  exists t q,
    schema df !! "energy_consumption" = Some t /\
    mean (present_values df) = Some q /\
    is_Some (schema df !! "utc_timestamp") /\
    df' = cleaned q t df.
Proof.
  unfold clean, agg_mean, fillna, resolve, present_values.
  destruct (schema df !! "energy_consumption") as [t |] eqn:Ht;
    [| discriminate].
  simpl.
  destruct (mean (omap to_double (column "energy_consumption" df)))
    as [q |] eqn:Hq; simpl; [| discriminate].
  rewrite ?Ht. simpl.
  destruct (schema df !! "utc_timestamp") as [tu |] eqn:Hu;
    simpl; [| discriminate].
  intros [= <-]. exists t, q.
  split; [reflexivity |]. split; [reflexivity |]. split; [by eexists |].
  unfold cleaned, withColumn. simpl. f_equal.
  by rewrite <- list_fmap_compose.
Qed.

Lemma clean_Ok (df : DataFrame) (t : DataType) (q : Qc) :
  schema df !! "energy_consumption" = Some t ->
  mean (present_values df) = Some q ->
  is_Some (schema df !! "utc_timestamp") ->
  clean df = Ok (cleaned q t df).
Proof.
  intros Ht Hq [tu Hu].
  unfold clean, agg_mean, fillna, resolve, present_values in *.
  rewrite Ht. simpl. rewrite Hq. simpl. rewrite ?Ht. simpl. rewrite Hu. simpl.
  unfold cleaned, withColumn. simpl. do 2 f_equal.
  by rewrite <- list_fmap_compose.
Qed.

(** Without a present value the replacement is [None], which [fillna]
    refuses. *)
Lemma clean_no_value (df : DataFrame) :
  present_values df = [] -> ~ returns (clean df).
Proof.
  intros Hnil [df' Hdf'].
  apply clean_Ok_inv in Hdf' as (t & q & _ & Hq & _).
  rewrite Hnil in Hq. discriminate.
Qed.

End CleanFacts.

(** ** The cleaning cell: what it keeps and what it changes *)

Section CleanClaims.

Context {E : Engine}.

Lemma some_value_present_mean (df : DataFrame) :
  some_value_present df -> is_Some (mean (present_values df)).
Proof.
  intros (r & q & Hin & Hq).
  destruct (mean (present_values df)) as [m |] eqn:Hm; [by eexists |].
  apply mean_None in Hm. destruct (present_values_nonempty df r q Hin Hq Hm).
Qed.

Lemma raw_frame_clean (df : DataFrame) :
  raw_frame df -> some_value_present df ->
  exists t q,
    schema df !! "energy_consumption" = Some t /\
    mean (present_values df) = Some q /\
    clean df = Ok (cleaned q t df).
Proof.
  intros [(t & Ht & Hnum) Hutc] Hsome.
  destruct (some_value_present_mean df Hsome) as [q Hq].
  exists t, q. split; [exact Ht |]. split; [exact Hq |].
  by apply clean_Ok.
Qed.

(** The imputation, for a column of either numeric type: the mean of the
    present values is taken once, cast to the type of the column, and put
    in place of each missing value; the present values stay. *)
Lemma clean_imputes_cast_mean (df : DataFrame) :
  raw_frame df -> some_value_present df ->
  exists t q df',
    schema df !! "energy_consumption" = Some t /\
    mean (present_values df) = Some q /\
    clean df = Ok df' /\
    forall i r, rows df !! i = Some r ->
      exists r', rows df' !! i = Some r' /\
        (missing r -> r' !! "energy_consumption" = Some (cast_double q t)) /\
        (~ missing r -> r' !! "energy_consumption" = r !! "energy_consumption").
Proof.
  intros Hraw Hsome.
  destruct (raw_frame_clean df Hraw Hsome) as (t & q & Ht & Hq & Hclean).
  exists t, q, (cleaned q t df). do 3 (split; [done |]).
  intros i r Hi. exists (clean_row (cast_double q t) r). split.
  - unfold cleaned. simpl. by rewrite list_lookup_fmap, Hi.
  - rewrite lookup_clean_row_energy. unfold missing. split; intros Hm.
    + unfold fill_row. rewrite Hm. apply lookup_insert_eq.
    + by rewrite fill_row_present.
Qed.

(** C7, amended: when both columns resolve, [energy_consumption] is numeric
    and at least one record carries a value, the cleaning cell returns a
    frame with as many records as the input, the record at each position
    being the cleaned record of that position. *)
Theorem clean_keeps_records (df : DataFrame) :
  raw_frame df -> some_value_present df ->
  exists df' v,
    clean df = Ok df' /\
    length (rows df') = length (rows df) /\
    rows df' = clean_row v <$> rows df /\
    forall i r, rows df !! i = Some r ->
      rows df' !! i = Some (clean_row v r).
Proof.
  intros Hraw Hsome.
  destruct (raw_frame_clean df Hraw Hsome) as (t & q & Ht & Hq & Hclean).
  exists (cleaned q t df), (cast_double q t).
  split; [exact Hclean |]. unfold cleaned. simpl.
  split; [apply length_fmap |]. split; [reflexivity |].
  intros i r Hi. by rewrite list_lookup_fmap, Hi.
Qed.

(** C9, amended: whenever the cleaning cell returns, every record keeps
    every column other than [energy_consumption] and [timestamp_column],
    the [utc_timestamp] cell among them; [timestamp_column] holds the
    parsed timestamp, whatever it held before; [energy_consumption] changes
    only where it was NULL; and the schema differs at [timestamp_column]
    at most. *)
Theorem clean_frame_condition (df df' : DataFrame) :
  clean df = Ok df' ->
  (forall c, c <> "timestamp_column" -> schema df' !! c = schema df !! c) /\
  forall i r, rows df !! i = Some r ->
    exists r', rows df' !! i = Some r' /\
      (forall c, c <> "energy_consumption" -> c <> "timestamp_column" ->
                 r' !! c = r !! c) /\
      r' !! "utc_timestamp" = r !! "utc_timestamp" /\
      r' !! "timestamp_column" = Some (to_timestamp (cell r "utc_timestamp")) /\
      (~ missing r -> r' !! "energy_consumption" = r !! "energy_consumption").
Proof.
  intros Hclean.
  apply clean_Ok_inv in Hclean as (t & q & _ & _ & _ & ->).
  unfold cleaned. simpl. split.
  - intros c Hc. by rewrite lookup_insert_ne.
  - intros i r Hi. exists (clean_row (cast_double q t) r).
    split; [by rewrite list_lookup_fmap, Hi |].
    split; [intros c Hec Htc; by apply lookup_clean_row_other |].
    split; [by apply lookup_clean_row_other |].
    split; [apply lookup_clean_row_timestamp |].
    intros Hm. rewrite lookup_clean_row_energy.
    by rewrite fill_row_present.
Qed.

(** C5, amended: a timestamp that does not parse never makes the cleaning
    cell fail.  On every frame on which the imputation is defined the cell
    returns all the records; a record whose [utc_timestamp] string the
    cast rejects gets a NULL [timestamp_column], and a record whose string
    the cast accepts gets the instant. *)
Theorem unparseable_timestamp_becomes_null (df : DataFrame) :
  raw_frame df -> some_value_present df ->
  exists df',
    clean df = Ok df' /\
    length (rows df') = length (rows df) /\
    forall i r s, rows df !! i = Some r ->
      cell r "utc_timestamp" = VString s ->
      exists r', rows df' !! i = Some r' /\
        r' !! "timestamp_column"
        = Some (match string_to_timestamp s with
                | Some t => VTimestamp t
                | None => VNull
                end).
Proof.
  intros Hraw Hsome.
  destruct (raw_frame_clean df Hraw Hsome) as (t & q & Ht & Hq & Hclean).
  exists (cleaned q t df). split; [exact Hclean |].
  unfold cleaned. simpl. split; [apply length_fmap |].
  intros i r s Hi Hs. exists (clean_row (cast_double q t) r).
  split; [by rewrite list_lookup_fmap, Hi |].
  rewrite lookup_clean_row_timestamp, Hs. reflexivity.
Qed.

Lemma already_clean_row (v : Value) (r : gmap string Value) :
  (exists q, r !! "energy_consumption" = Some (VNum q)) ->
  r !! "timestamp_column" = Some (to_timestamp (cell r "utc_timestamp")) ->
  clean_row v r = r.
Proof.
  intros [q Hq] Hts. unfold clean_row.
  rewrite fill_row_present by (unfold cell; by rewrite Hq).
  by apply insert_id.
Qed.

Lemma cast_double_not_null (q : Qc) (t : DataType) : cast_double q t <> VNull.
Proof. by destruct t. Qed.

Lemma cell_clean_row_energy (v : Value) (r : gmap string Value) :
  cell (clean_row v r) "energy_consumption"
  = match cell r "energy_consumption" with
    | VNull => v
    | present => present
    end.
Proof.
  unfold clean_row. rewrite cell_insert_ne by done.
  destruct (cell r "energy_consumption") eqn:Hv;
    try (rewrite fill_row_present by (rewrite Hv; discriminate); exact Hv).
  by apply cell_fill_row_null.
Qed.

(** A cleaned row is left alone by a second pass, whatever replacement the
    second pass brings. *)
Lemma clean_row_clean_row (v v' : Value) (r : gmap string Value) :
  v <> VNull -> clean_row v' (clean_row v r) = clean_row v r.
Proof.
  intros Hv. unfold clean_row at 1.
  rewrite fill_row_present.
  - apply insert_id. rewrite lookup_clean_row_timestamp. f_equal. f_equal.
    unfold cell. by rewrite lookup_clean_row_other.
  - rewrite cell_clean_row_energy.
    by destruct (cell r "energy_consumption").
Qed.

Lemma present_values_cleaned (q : Qc) (t : DataType) (df : DataFrame) :
  present_values df <> [] -> present_values (cleaned q t df) <> [].
Proof.
  intros Hne. destruct (present_values df) as [| x l] eqn:Hl; [done |].
  assert (Hx : x ∈ present_values df) by (rewrite Hl; by left).
  unfold present_values, column in Hx.
  apply list_elem_of_omap in Hx as (v & Hv & Hx).
  apply list_elem_of_fmap in Hv as (r & -> & Hr).
  intros Hnil.
  assert (Hin : x ∈ present_values (cleaned q t df)).
  { unfold present_values, column, cleaned. simpl.
    apply list_elem_of_omap. exists (cell r "energy_consumption").
    split; [| exact Hx]. apply list_elem_of_fmap.
    exists (clean_row (cast_double q t) r). split.
    - rewrite cell_clean_row_energy.
      destruct (cell r "energy_consumption"); try reflexivity. discriminate.
    - apply list_elem_of_fmap. by exists r. }
  rewrite Hnil in Hin. by apply not_elem_of_nil in Hin.
Qed.

(** Cleaning a frame the cell has returned returns it again. *)
Lemma clean_idempotent (df df' : DataFrame) :
  clean df = Ok df' -> clean df' = Ok df'.
Proof.
  intros Hclean.
  apply clean_Ok_inv in Hclean as (t & q & Ht & Hq & Hutc & ->).
  assert (Hne : present_values (cleaned q t df) <> []).
  { apply present_values_cleaned. intros Hnil. by rewrite Hnil in Hq. }
  destruct (mean (present_values (cleaned q t df))) as [q' |] eqn:Hq';
    [| by apply mean_None in Hq'].
  rewrite (clean_Ok (cleaned q t df) t q'); try done.
  - f_equal. unfold cleaned. simpl. f_equal.
    + apply insert_insert_eq.
    + rewrite <- list_fmap_compose. apply list_fmap_ext. intros i r _.
      apply clean_row_clean_row, cast_double_not_null.
  - unfold cleaned. simpl. by rewrite lookup_insert_ne.
  - unfold cleaned. simpl. by rewrite lookup_insert_ne.
Qed.

(** C8, amended: cleaning twice is cleaning once, on every input; and on a
    frame with at least one record that is already clean, the cleaning
    cell returns the frame itself. *)
Theorem clean_already_clean (df : DataFrame) :
  (clean df ≫= clean) = clean df /\
  (already_clean df -> rows df <> [] -> clean df = Ok df).
Proof.
  split.
  { destruct (clean df) as [df' | e] eqn:Hclean; [| reflexivity].
    exact (clean_idempotent df df' Hclean). }
  intros (Hraw & Htc & Hrows) Hne.
  assert (Hsome : some_value_present df).
  { destruct (rows df) as [| r l] eqn:Hl; [done |].
    inversion Hrows as [| ? ? [[q Hq] _] _].
    exists r, q. rewrite Hl. split; [apply list_elem_of_here |].
    unfold cell. by rewrite Hq. }
  destruct (raw_frame_clean df Hraw Hsome) as (t & q & Ht & Hq & Hclean).
  assert (Hid : cleaned q t df = df).
  { destruct df as [sch rws]. unfold cleaned. simpl in *. f_equal.
    - by apply insert_id.
    - rewrite <- (list_fmap_id rws) at 2. apply Forall_fmap_ext.
      revert Hrows. apply Forall_impl.
      intros r [Hv Hts]. by apply already_clean_row. }
  by rewrite Hid in Hclean.
Qed.

End CleanClaims.

(** ** Sums: wrap-around and regrouping *)

Section Sums.

Lemma wrap64_plus_l (a b : Z) : wrap64 (wrap64 a + b) = wrap64 (a + b).
Proof.
  unfold wrap64. f_equal.
  replace ((a + 2 ^ 63) mod 2 ^ 64 - 2 ^ 63 + b + 2 ^ 63)
    with ((a + 2 ^ 63) mod 2 ^ 64 + b) by lia.
  rewrite Zplus_mod_idemp_l. f_equal. lia.
Qed.

Lemma wrap64_plus_r (a b : Z) : wrap64 (a + wrap64 b) = wrap64 (a + b).
Proof. rewrite (Z.add_comm a), wrap64_plus_l. f_equal. lia. Qed.

Lemma wrap64_in_range (z : Z) : in_long_range z -> wrap64 z = z.
Proof.
  unfold in_long_range, LONG_MIN, LONG_MAX, wrap64. intros Hz.
  rewrite Z.mod_small; lia.
Qed.

Lemma wrap64_range (z : Z) : in_long_range (wrap64 z).
Proof.
  unfold in_long_range, LONG_MIN, LONG_MAX, wrap64.
  pose proof (Z.mod_pos_bound (z + 2 ^ 63) (2 ^ 64) ltac:(lia)). lia.
Qed.

(** Adding longs one by one with wrap-around gives the exact sum, wrapped
    once. *)
Lemma long_sum_from (l : list Z) (s : Z) :
  foldl (fun s z => wrap64 (s + z)) (wrap64 s) l = wrap64 (s + sum_Z l).
Proof.
  revert s. induction l as [| z l IH]; intros s.
  - simpl. f_equal. lia.
  - cbn [foldl sum_Z foldr]. rewrite wrap64_plus_l, IH. f_equal.
    change (foldr Z.add 0 l) with (sum_Z l). lia.
Qed.

Lemma long_sum_wrap (l : list Z) : long_sum l = wrap64 (sum_Z l).
Proof. exact (long_sum_from l 0). Qed.

Lemma sum_Z_cons (z : Z) (l : list Z) : sum_Z (z :: l) = z + sum_Z l.
Proof. reflexivity. Qed.

Lemma sum_Z_Permutation (l l' : list Z) : l ≡ₚ l' -> sum_Z l = sum_Z l'.
Proof.
  induction 1 as [| z l l' _ IH | y z l | l l' l'' _ IH1 _ IH2].
  - reflexivity.
  - by rewrite !sum_Z_cons, IH.
  - rewrite !sum_Z_cons. lia.
  - by rewrite IH1.
Qed.

Lemma sum_Z_zeros {A : Type} (l : list A) : sum_Z ((fun _ => 0) <$> l) = 0.
Proof.
  induction l as [| x l IH]; [reflexivity |].
  by rewrite fmap_cons, sum_Z_cons, IH.
Qed.

Lemma sum_Z_plus {A : Type} (f g : A -> Z) (l : list A) :
  sum_Z ((fun x => f x + g x) <$> l) = sum_Z (f <$> l) + sum_Z (g <$> l).
Proof.
  induction l as [| x l IH]; [reflexivity |].
  rewrite !fmap_cons, !sum_Z_cons, IH. lia.
Qed.

(** Wrapping each term does not change the wrapped sum. *)
Lemma wrap64_sum_wrap {A : Type} (f : A -> Z) (l : list A) :
  wrap64 (sum_Z ((fun x => wrap64 (f x)) <$> l)) = wrap64 (sum_Z (f <$> l)).
Proof.
  induction l as [| x l IH]; [reflexivity |].
  rewrite !fmap_cons, !sum_Z_cons.
  rewrite wrap64_plus_l, <- wrap64_plus_r, IH, wrap64_plus_r. reflexivity.
Qed.

Context {A K : Type} `{EqDecision K}.

(** Among keys without repetition, exactly one is the key [k0]. *)
Lemma sum_Z_indicator (k0 : K) (z : Z) (ks : list K) :
  NoDup ks -> k0 ∈ ks ->
  sum_Z ((fun k => if decide (k0 = k) then z else 0) <$> ks) = z.
Proof.
  induction 1 as [| k ks Hk Hnd IH]; intros Hin.
  - by apply not_elem_of_nil in Hin.
  - rewrite fmap_cons, sum_Z_cons.
    destruct (decide (k0 = k)) as [-> | Hne].
    + rewrite (list_fmap_ext _ (fun _ => 0)).
      * rewrite sum_Z_zeros. lia.
      * intros i k' Hk'. destruct (decide (k = k')) as [<- | ]; [| done].
        destruct Hk. eapply list_elem_of_lookup_2, Hk'.
    + apply elem_of_cons in Hin as [-> | Hin]; [done |].
      rewrite IH by done. lia.
Qed.

(** Regrouping: summing [f] group by group is summing it over the list. *)
Lemma sum_Z_groups (key : A -> K) (f : A -> Z) (l : list A) (ks : list K) :
  NoDup ks -> (forall x, x ∈ l -> key x ∈ ks) ->
  sum_Z ((fun k => sum_Z (f <$> filter (fun x => key x = k) l)) <$> ks)
  = sum_Z (f <$> l).
Proof.
  intros Hnd. induction l as [| x l IH]; intros Hks.
  - rewrite fmap_nil. apply sum_Z_zeros.
  - rewrite fmap_cons, sum_Z_cons.
    rewrite <- IH by (intros y Hy; apply Hks; by right).
    rewrite <- (sum_Z_indicator (key x) (f x) ks Hnd)
      at 1 by (apply Hks; by left).
    rewrite <- sum_Z_plus. f_equal. apply list_fmap_ext.
    intros i k _. rewrite filter_cons.
    destruct (decide (key x = k)); [reflexivity |]. lia.
Qed.

Lemma length_filter_eq_NoDup (k0 : K) (ks : list K) :
  NoDup ks ->
  length (filter (fun k => k = k0) ks) = if decide (k0 ∈ ks) then 1%nat else 0%nat.
Proof.
  induction 1 as [| k ks Hk Hnd IH]; [reflexivity |].
  rewrite filter_cons. destruct (decide (k = k0)) as [-> | Hne].
  - simpl. rewrite IH. rewrite decide_False by done.
    rewrite decide_True by (by left). reflexivity.
  - rewrite IH. destruct (decide (k0 ∈ ks)) as [Hin | Hnin].
    + rewrite decide_True by (by right). reflexivity.
    + rewrite decide_False; [reflexivity |].
      intros [-> | Hin]%elem_of_cons; done.
Qed.

End Sums.

(** ** Integers among the rationals *)

Section Integers.

Lemma of_Z_integral (z : Z) : integral (of_Z z).
Proof. unfold integral, of_Z. simpl. by rewrite inject_Z_Qred. Qed.

Lemma truncate_of_Z (z : Z) : truncate (of_Z z) = z.
Proof.
  unfold truncate, of_Z. simpl. rewrite inject_Z_Qred. simpl.
  apply Z.quot_1_r.
Qed.

Lemma long_of_VNum_of_Z (z : Z) : long_of (VNum (of_Z z)) = z.
Proof. unfold long_of. simpl. apply truncate_of_Z. Qed.

Lemma omap_to_long_cons (v : Value) (vs : list Value) :
  omap to_long (v :: vs)
  = match to_long v with
    | Some z => z :: omap to_long vs
    | None => omap to_long vs
    end.
Proof. reflexivity. Qed.

(** The cells that are no longs count for nothing. *)
Lemma sum_Z_to_long (vs : list Value) :
  sum_Z (omap to_long vs) = sum_Z (long_of <$> vs).
Proof.
  induction vs as [| v vs IH]; [reflexivity |].
  rewrite omap_to_long_cons, fmap_cons, sum_Z_cons, <- IH.
  unfold long_of. destruct (to_long v); reflexivity.
Qed.

Context {E : Engine}.

(** The total over an integer column, as an integer: the exact sum of the
    cells, wrapped. *)
Lemma long_of_agg_sum (vs : list Value) :
  long_of (agg_sum IntegerType vs) = wrap64 (sum_Z (long_of <$> vs)).
Proof.
  rewrite <- sum_Z_to_long, <- long_sum_wrap. unfold agg_sum.
  destruct (omap to_long vs) as [| z zs]; [reflexivity |].
  apply long_of_VNum_of_Z.
Qed.

End Integers.

(** ** The aggregation cell, unfolded *)

Section AggregateFacts.

Context {E : Engine}.

Lemma filter_fmap_list {A B : Type} (g : A -> B) (P : B -> Prop)
    `{!forall y, Decision (P y)} (l : list A) :
  filter P (g <$> l) = g <$> filter (fun x => P (g x)) l.
Proof.
  induction l as [| x l IH]; [reflexivity |].
  rewrite fmap_cons, !filter_cons, IH.
  destruct (decide (P (g x))); reflexivity.
Qed.

Lemma filter_ext_elem {A : Type} (P Q : A -> Prop)
    `{!forall x, Decision (P x), !forall x, Decision (Q x)} (l : list A) :
  (forall x, x ∈ l -> P x <-> Q x) -> filter P l = filter Q l.
Proof.
  induction l as [| x l IH]; intros Hext; [reflexivity |].
  rewrite !filter_cons, IH by (intros y Hy; apply Hext; by right).
  destruct (decide (P x)) as [HP | HP], (decide (Q x)) as [HQ | HQ];
    try reflexivity; exfalso; apply (Hext x) in HP || apply (Hext x) in HQ;
    done || by left.
Qed.

(** The outcome of the aggregation cell, by cases on the schema. *)
Lemma daily_consumption_outcome (df : DataFrame) :
  match schema df !! "timestamp_column" with
  | Some StringType | Some TimestampType =>
      match schema df !! "energy_consumption" with
      | None => daily_consumption df = Raise AnalysisException
      | Some ct => daily_consumption df = Ok (daily_frame ct df)
      end
  | _ => daily_consumption df = Raise AnalysisException
  end.
Proof.
  unfold daily_consumption, resolve.
  destruct (schema df !! "timestamp_column") as [tt |]; [| reflexivity].
  assert (Hrows : forall ct,
    groupBy_sum "date" "energy_consumption" "total_daily_consumption"
      TimestampType ct
      (withColumn "date" TimestampType
         (fun r => date_trunc_day (cell r "timestamp_column")) df)
    = daily_frame ct df).
  { intros ct. unfold groupBy_sum, withColumn, column, group, daily_frame.
    simpl. f_equal.
    rewrite <- list_fmap_compose.
    rewrite (list_fmap_ext _ date_key (rows df))
      by (intros i r _; apply cell_insert_eq).
    apply list_fmap_ext. intros i k _. unfold daily_entry. do 2 f_equal.
    rewrite filter_fmap_list, <- list_fmap_compose.
    rewrite (list_filter_iff _ (fun r => date_key r = k))
      by (intros r; by rewrite cell_insert_eq).
    apply list_fmap_ext. intros j r _. simpl. by apply cell_insert_ne. }
  destruct tt; simpl; try reflexivity;
    rewrite lookup_insert_ne by done;
    (destruct (schema df !! "energy_consumption") as [ct |];
     simpl; [| reflexivity]);
    by rewrite Hrows.
Qed.

Lemma daily_consumption_Ok_inv (df out : DataFrame) :
  daily_consumption df = Ok out ->
  (schema df !! "timestamp_column" = Some StringType \/
   schema df !! "timestamp_column" = Some TimestampType) /\
  exists ct,
    schema df !! "energy_consumption" = Some ct /\
    out = daily_frame ct df.
Proof.
  intros Hout. pose proof (daily_consumption_outcome df) as Hcases.
  destruct (schema df !! "timestamp_column") as [[] |];
    rewrite ?Hcases in Hout; try discriminate;
    (destruct (schema df !! "energy_consumption") as [ct |];
     [| rewrite Hcases in Hout; discriminate]);
    rewrite Hcases in Hout; injection Hout as <-;
    (split; [by (left + right) | by exists ct]).
Qed.

Lemma daily_consumption_Ok (df : DataFrame) (ct : DataType) :
  schema df !! "timestamp_column" = Some StringType \/
  schema df !! "timestamp_column" = Some TimestampType ->
  schema df !! "energy_consumption" = Some ct ->
  daily_consumption df = Ok (daily_frame ct df).
Proof.
  intros Htc Hct. pose proof (daily_consumption_outcome df) as Hcases.
  rewrite Hct in Hcases. by destruct Htc as [Htc | Htc]; rewrite Htc in Hcases.
Qed.

(** The rows of the output, in terms of the rows of the input. *)
Lemma daily_consumption_rows (df out : DataFrame) :
  daily_consumption df = Ok out ->
  rows out = daily_entry (energy_type df) (rows df)
             <$> remove_dups (date_key <$> rows df).
Proof.
  intros Hout.
  apply daily_consumption_Ok_inv in Hout as (_ & ct & Hct & ->).
  unfold energy_type. by rewrite Hct.
Qed.

Lemma daily_consumption_schema (df out : DataFrame) :
  daily_consumption df = Ok out ->
  exists ct,
    schema df !! "energy_consumption" = Some ct /\
    schema out
    = <["total_daily_consumption" := sum_type ct]> {[ "date" := TimestampType ]}.
Proof.
  intros Hout.
  apply daily_consumption_Ok_inv in Hout as (_ & ct & Hct & ->).
  by exists ct.
Qed.

(** On a frame produced by the cleaning cell the aggregation is defined. *)
Lemma daily_consumption_cleaned (q : Qc) (t : DataType) (raw : DataFrame) :
  schema raw !! "energy_consumption" = Some t ->
  daily_consumption (cleaned q t raw) = Ok (daily_frame t (cleaned q t raw)).
Proof.
  intros Ht. apply daily_consumption_Ok.
  - right. unfold cleaned. simpl. apply lookup_insert_eq.
  - unfold cleaned. simpl. by rewrite lookup_insert_ne.
Qed.

Lemma daily_consumption_returns (raw df : DataFrame) :
  clean raw = Ok df -> returns (daily_consumption df).
Proof.
  intros Hclean.
  apply clean_Ok_inv in Hclean as (t & q & Ht & _ & _ & ->).
  eexists. by apply daily_consumption_cleaned.
Qed.

Lemma energy_type_cleaned (q : Qc) (t : DataType) (raw : DataFrame) :
  schema raw !! "energy_consumption" = Some t ->
  energy_type (cleaned q t raw) = t.
Proof.
  intros Ht. unfold energy_type, cleaned. simpl.
  by rewrite lookup_insert_ne, Ht.
Qed.

Lemma cell_daily_entry_date (ct : DataType) (l : list (gmap string Value))
    (k : Value) :
  cell (daily_entry ct l k) "date" = k.
Proof.
  unfold daily_entry. rewrite cell_insert_ne by done.
  unfold cell. by rewrite lookup_singleton_eq.
Qed.

Lemma cell_daily_entry_total (ct : DataType) (l : list (gmap string Value))
    (k : Value) :
  cell (daily_entry ct l k) "total_daily_consumption"
  = agg_sum ct ((fun r => cell r "energy_consumption")
                <$> filter (fun r => date_key r = k) l).
Proof. unfold daily_entry. apply cell_insert_eq. Qed.

Lemma elem_of_daily_rows (df out : DataFrame) (e : gmap string Value) :
  daily_consumption df = Ok out ->
  e ∈ rows out <->
  exists r, r ∈ rows df /\
            e = daily_entry (energy_type df) (rows df) (date_key r).
Proof.
  intros Hout. rewrite (daily_consumption_rows df out Hout).
  rewrite list_elem_of_fmap. split.
  - intros (k & -> & Hk).
    apply elem_of_remove_dups, list_elem_of_fmap in Hk as (r & -> & Hr).
    by exists r.
  - intros (r & Hr & ->). exists (date_key r). split; [reflexivity |].
    apply elem_of_remove_dups, list_elem_of_fmap. by exists r.
Qed.

Lemma column_date_daily (df out : DataFrame) :
  daily_consumption df = Ok out ->
  column "date" out = remove_dups (date_key <$> rows df).
Proof.
  intros Hout. unfold column. rewrite (daily_consumption_rows df out Hout).
  rewrite <- list_fmap_compose. rewrite <- (list_fmap_id (remove_dups _)) at 2.
  apply list_fmap_ext. intros i k _. apply cell_daily_entry_date.
Qed.

(** The entries filed under one key. *)
Lemma daily_consumption_key_entries (df out : DataFrame) (k : Value) :
  daily_consumption df = Ok out ->
  length (filter (fun e => cell e "date" = k) (rows out))
  = if decide (k ∈ (date_key <$> rows df)) then 1%nat else 0%nat.
Proof.
  intros Hout. rewrite (daily_consumption_rows df out Hout).
  rewrite filter_fmap_list, length_fmap.
  rewrite (list_filter_iff _ (fun k' => k' = k))
    by (intros k'; by rewrite cell_daily_entry_date).
  rewrite length_filter_eq_NoDup by apply NoDup_remove_dups.
  destruct (decide (k ∈ date_key <$> rows df)) as [Hin | Hnin].
  - apply decide_True. by apply elem_of_remove_dups.
  - apply decide_False. by rewrite elem_of_remove_dups.
Qed.

(** The totals of an integer column add up to the sum over the records,
    up to wrap-around. *)
Lemma daily_consumption_integer_sum (df out : DataFrame) :
  daily_consumption df = Ok out -> energy_type df = IntegerType ->
  integer_sum "total_daily_consumption" out
  = sum_Z ((fun k => wrap64 (integer_where (fun r => date_key r = k) (rows df)))
           <$> remove_dups (date_key <$> rows df)) /\
  sum_Z ((fun k => integer_where (fun r => date_key r = k) (rows df))
         <$> remove_dups (date_key <$> rows df))
  = integer_sum "energy_consumption" df.
Proof.
  intros Hout Hct. split.
  - unfold integer_sum, column.
    rewrite (daily_consumption_rows df out Hout), Hct.
    rewrite <- !list_fmap_compose. f_equal. apply list_fmap_ext.
    intros i k _. simpl. rewrite cell_daily_entry_total.
    by rewrite long_of_agg_sum.
  - unfold integer_sum, column, integer_where, energy_where.
    rewrite <- list_fmap_compose.
    etrans;
      [| apply (sum_Z_groups date_key
                  (fun r => long_of (cell r "energy_consumption"))
                  (rows df) (remove_dups (date_key <$> rows df)))].
    + f_equal. apply list_fmap_ext. intros i k _. simpl.
      by rewrite <- list_fmap_compose.
    + apply NoDup_remove_dups.
    + intros r Hr. apply elem_of_remove_dups, list_elem_of_fmap. by exists r.
Qed.

(** Days and keys. *)
Lemma local_day_start_of_day (d : Z) : local_day (start_of_day d) = d.
Proof.
  unfold local_day, start_of_day.
  replace (d * MICROS_PER_DAY - session_zone + session_zone)
    with (d * MICROS_PER_DAY) by lia.
  by apply Z.div_mul.
Qed.

Lemma date_trunc_day_day_of (v : Value) :
  date_trunc_day v
  = match day_of v with
    | Some d => VTimestamp (start_of_day d)
    | None => VNull
    end.
Proof.
  unfold date_trunc_day, day_of, instant_of.
  destruct (to_timestamp v); reflexivity.
Qed.

Lemma day_of_VTimestamp (t : Z) : day_of (VTimestamp t) = Some (local_day t).
Proof. reflexivity. Qed.

Lemma day_of_date_key (r : gmap string Value) (d : Z) :
  day_of (date_key r) = Some d <-> falls_on d r.
Proof.
  unfold date_key, falls_on. rewrite date_trunc_day_day_of.
  destruct (day_of (cell r "timestamp_column")) as [d' |].
  - rewrite day_of_VTimestamp, local_day_start_of_day. reflexivity.
  - split; discriminate.
Qed.

Lemma date_key_of_day (r : gmap string Value) (d : Z) :
  date_key r = VTimestamp (start_of_day d) <-> falls_on d r.
Proof.
  rewrite <- day_of_date_key. unfold date_key.
  rewrite date_trunc_day_day_of.
  destruct (day_of (cell r "timestamp_column")) as [d' |].
  - rewrite day_of_VTimestamp, local_day_start_of_day. split.
    + intros [= Heq]. f_equal.
      rewrite <- (local_day_start_of_day d'), Heq.
      apply local_day_start_of_day.
    + by intros [= ->].
  - split; discriminate.
Qed.

End AggregateFacts.

(** ** The aggregation cell: totals and days *)

Section AggregateClaims.

Context {E : Engine}.

(** C2, amended: on every frame of cleaned records the aggregation
    returns; every record is counted in exactly one entry, the entry of
    its date; and the total of an entry is the engine's sum over the
    records of that date, in their order.  Over an integer column the
    totals add up to the sum over all the records modulo 2^64, and to that
    sum itself when the sum of no date leaves the range of the longs. *)
Theorem daily_totals_conserve_sum (raw df : DataFrame) :
  clean raw = Ok df ->
  exists out ct,
    daily_consumption df = Ok out /\
    schema df !! "energy_consumption" = Some ct /\
    (forall r, r ∈ rows df ->
       length (filter (fun e => cell e "date" = date_key r) (rows out))
       = 1%nat) /\
    (forall e, e ∈ rows out ->
       cell e "total_daily_consumption"
       = agg_sum ct (energy_where (fun r => date_key r = cell e "date")
                       (rows df))) /\
    (ct = IntegerType ->
     wrap64 (integer_sum "total_daily_consumption" out)
     = wrap64 (integer_sum "energy_consumption" df) /\
     (Forall (fun e =>
                in_long_range
                  (integer_where (fun r => date_key r = cell e "date")
                     (rows df)))
             (rows out) ->
      integer_sum "total_daily_consumption" out
      = integer_sum "energy_consumption" df)).
Proof.
  intros Hclean.
  destruct (daily_consumption_returns raw df Hclean) as [out Hout].
  apply clean_Ok_inv in Hclean as (t & q & Ht & _ & _ & ->).
  pose proof (energy_type_cleaned q t raw Ht) as Htype.
  set (df := cleaned q t raw) in *.
  exists out, t. split; [exact Hout |].
  split; [unfold df, cleaned; simpl; by rewrite lookup_insert_ne |].
  split; [| split].
  - intros r Hr. rewrite (daily_consumption_key_entries df out _ Hout).
    apply decide_True, list_elem_of_fmap. by exists r.
  - intros e He.
    apply (elem_of_daily_rows df out e Hout) in He as (r & Hr & ->).
    rewrite cell_daily_entry_total, cell_daily_entry_date, Htype.
    reflexivity.
  - intros ->.
    destruct (daily_consumption_integer_sum df out Hout Htype)
      as [Htotals Hgroups].
    split.
    + rewrite Htotals, <- Hgroups. apply wrap64_sum_wrap.
    + intros Hrange. rewrite Htotals, <- Hgroups. f_equal.
      apply list_fmap_ext. intros i k Hk. simpl. apply wrap64_in_range.
      apply list_elem_of_lookup_2 in Hk. rewrite elem_of_remove_dups in Hk.
      apply list_elem_of_fmap in Hk as (r & -> & Hr).
      pose proof (proj1 (list.Forall_forall _ _) Hrange
                    (daily_entry (energy_type df) (rows df) (date_key r)))
        as Hentry.
      cbv beta in Hentry. rewrite cell_daily_entry_date in Hentry.
      apply Hentry.
      apply (elem_of_daily_rows df out _ Hout). by exists r.
Qed.

(** The entries of day [d] in the output of the aggregation. *)
Lemma daily_consumption_entries (df out : DataFrame) (d : Z) :
  daily_consumption df = Ok out ->
  length (filter (entry_of d) (rows out))
  = if decide (Exists (falls_on d) (rows df)) then 1%nat else 0%nat.
Proof.
  intros Hout. rewrite (daily_consumption_rows df out Hout).
  rewrite filter_fmap_list, length_fmap.
  rewrite (filter_ext_elem _ (fun k => k = VTimestamp (start_of_day d))).
  - rewrite length_filter_eq_NoDup by apply NoDup_remove_dups.
    destruct (decide (Exists (falls_on d) (rows df))) as [Hex | Hnex].
    + apply decide_True. apply list.Exists_exists in Hex as (r & Hr & Hd).
      apply elem_of_remove_dups, list_elem_of_fmap. exists r.
      split; [| exact Hr]. symmetry. by apply date_key_of_day.
    + apply decide_False. intros Hin. apply Hnex.
      apply elem_of_remove_dups, list_elem_of_fmap in Hin as (r & Hk & Hr).
      apply list.Exists_exists. exists r. split; [exact Hr |].
      by apply date_key_of_day.
  - intros k Hk.
    apply elem_of_remove_dups, list_elem_of_fmap in Hk as (r & -> & Hr).
    unfold entry_of. rewrite cell_daily_entry_date.
    by rewrite day_of_date_key, date_key_of_day.
Qed.

(** C3: on every frame of cleaned records the aggregation returns, and for
    every calendar day its output has exactly one entry of that day when
    some record falls on it, and none when no record does. *)
Theorem one_entry_per_day (raw df : DataFrame) :
  clean raw = Ok df ->
  exists out,
    daily_consumption df = Ok out /\
    forall d : Z,
      ((exists r, r ∈ rows df /\ falls_on d r) ->
       length (filter (entry_of d) (rows out)) = 1%nat) /\
      ((~ exists r, r ∈ rows df /\ falls_on d r) ->
       length (filter (entry_of d) (rows out)) = 0%nat).
Proof.
  intros Hclean.
  destruct (daily_consumption_returns raw df Hclean) as [out Hout].
  exists out. split; [exact Hout |]. intros d.
  rewrite (daily_consumption_entries df out d Hout).
  split; intros Hd.
  - apply decide_True. by apply list.Exists_exists.
  - apply decide_False. by rewrite list.Exists_exists.
Qed.

End AggregateClaims.

(** ** Days: the session time zone and the offset a string carries *)

Section WrittenDay.

Import Iso8601.

Context {E : Engine}.

(** The day of an instant starts at a midnight of the session time zone,
    the last one that is not after the instant. *)
Lemma start_of_day_bounds (t : Z) :
  start_of_day (local_day t) <= t < start_of_day (local_day t) + MICROS_PER_DAY
  /\ (start_of_day (local_day t) + session_zone) mod MICROS_PER_DAY = 0.
Proof.
  unfold start_of_day, local_day.
  assert (Hday : 0 < MICROS_PER_DAY) by done.
  pose proof (Z.div_mod (t + session_zone) MICROS_PER_DAY ltac:(lia)) as Hdiv.
  pose proof (Z.mod_pos_bound (t + session_zone) MICROS_PER_DAY Hday) as Hmod.
  split; [lia |].
  replace ((t + session_zone) / MICROS_PER_DAY * MICROS_PER_DAY
           - session_zone + session_zone)
    with ((t + session_zone) / MICROS_PER_DAY * MICROS_PER_DAY) by lia.
  apply Z.mod_mul. lia.
Qed.

(** When the written offset is the session time zone's, or none is
    written, the day of the instant starts at midnight of the written
    date. *)
Lemma session_day_of_written (w : Written) :
  0 <= micro_of_day w < MICROS_PER_DAY ->
  in_session_zone session_zone w ->
  start_of_day (local_day (instant session_zone w))
  = written_midnight session_zone w.
Proof.
  intros Hmicro Hzone.
  unfold start_of_day, local_day, instant, written_midnight.
  set (D := days_from_civil (year w) (month w) (day w)).
  assert (Hday : (D * MICROS_PER_DAY + micro_of_day w) / MICROS_PER_DAY = D).
  { rewrite Z.div_add_l by done. rewrite Z.div_small; lia. }
  unfold in_session_zone in Hzone. destruct (offset w) as [off |].
  - replace (D * MICROS_PER_DAY + micro_of_day w
             - off * MICROS_PER_SECOND + session_zone)
      with (D * MICROS_PER_DAY + micro_of_day w) by lia.
    rewrite Hday. lia.
  - replace (D * MICROS_PER_DAY + micro_of_day w - session_zone + session_zone)
      with (D * MICROS_PER_DAY + micro_of_day w) by lia.
    by rewrite Hday.
Qed.

(** The key of a cleaned record, from the cell the record came with. *)
Lemma date_key_clean_row (v : Value) (r : gmap string Value) :
  date_key (clean_row v r)
  = match instant_of (cell r "utc_timestamp") with
    | Some t => VTimestamp (start_of_day (local_day t))
    | None => VNull
    end.
Proof.
  unfold date_key, cell at 1. rewrite lookup_clean_row_timestamp. simpl.
  unfold date_trunc_day, instant_of.
  destruct (cell r "utc_timestamp") as [| q | s | t]; simpl; try reflexivity.
  by destruct (string_to_timestamp s).
Qed.

(** C6, amended: every cleaned record, whatever its [utc_timestamp] cell
    was, is filed under the one entry whose date is the instant at which
    the day containing the record's instant starts in the session time
    zone, and under a NULL date when the cell casts to no instant.  Only
    the instant counts: two records with the same instant, however they
    were written, get the same key.  When the engine reads the string of
    the record as the date, time and offset [w], and that offset is the
    session time zone's or none is written, the key is midnight of the
    written date. *)
Theorem grouped_by_session_day (raw df : DataFrame) (i : nat)
    (r : gmap string Value) :
  clean raw = Ok df ->
  rows raw !! i = Some r ->
  exists out r' e,
    daily_consumption df = Ok out /\
    rows df !! i = Some r' /\
    e ∈ rows out /\
    cell e "date" = date_key r' /\
    (forall e', e' ∈ rows out -> cell e' "date" = date_key r' -> e' = e) /\
    date_key r'
    = match instant_of (cell r "utc_timestamp") with
      | Some t => VTimestamp (start_of_day (local_day t))
      | None => VNull
      end /\
    (forall t, instant_of (cell r "utc_timestamp") = Some t ->
       start_of_day (local_day t) <= t
       < start_of_day (local_day t) + MICROS_PER_DAY /\
       (start_of_day (local_day t) + session_zone) mod MICROS_PER_DAY = 0) /\
    (forall j r2, rows raw !! j = Some r2 ->
       instant_of (cell r2 "utc_timestamp")
       = instant_of (cell r "utc_timestamp") ->
       exists r2', rows df !! j = Some r2' /\ date_key r2' = date_key r') /\
    (forall s w, cell r "utc_timestamp" = VString s ->
       string_to_timestamp s = Some (instant session_zone w) ->
       0 <= micro_of_day w < MICROS_PER_DAY ->
       in_session_zone session_zone w ->
       date_key r' = VTimestamp (written_midnight session_zone w)).
Proof.
  intros Hclean Hi.
  destruct (daily_consumption_returns raw df Hclean) as [out Hout].
  apply clean_Ok_inv in Hclean as (t & q & _ & _ & _ & ->).
  set (df := cleaned q t raw) in *.
  set (r' := clean_row (cast_double q t) r).
  assert (Hrow : forall j x, rows raw !! j = Some x ->
            rows df !! j = Some (clean_row (cast_double q t) x)).
  { intros j x Hj. unfold df, cleaned. simpl. by rewrite list_lookup_fmap, Hj. }
  exists out, r', (daily_entry (energy_type df) (rows df) (date_key r')).
  split; [exact Hout |]. split; [by apply Hrow |].
  split.
  { apply (elem_of_daily_rows df out _ Hout). exists r'.
    split; [| reflexivity]. eapply list_elem_of_lookup_2, Hrow, Hi. }
  split; [apply cell_daily_entry_date |].
  split.
  { intros e' He' Hdate.
    apply (elem_of_daily_rows df out e' Hout) in He' as (x & _ & ->).
    rewrite cell_daily_entry_date in Hdate. by rewrite Hdate. }
  split; [apply date_key_clean_row |].
  split; [intros t' _; apply start_of_day_bounds |].
  split.
  { intros j r2 Hj Hsame. exists (clean_row (cast_double q t) r2).
    split; [by apply Hrow |].
    unfold r'. by rewrite !date_key_clean_row, Hsame. }
  intros s w Hs Hw Hmicro Hzone. unfold r'.
  rewrite date_key_clean_row. unfold instant_of. rewrite Hs. simpl.
  rewrite Hw. f_equal. by apply session_day_of_written.
Qed.

End WrittenDay.

(** ** Fetching, then loading *)

Section LoaderFacts.

Import Fetcher.

Variable parse_csv : list byte -> result DataFrame.

(** X1: when the server answers with status 200 and the file system
    stores the body, the frame the load cell gets is the reader's result
    on the downloaded body, whatever was at the path before; when the file
    system refuses, the run stops in the fetch cell with the exception of
    the file system and the load cell is not run. *)
Theorem fetch_then_load_downloaded (url path : string) (w : World)
    (response : Response) :
  network w url = Ok response ->
  status_code response = 200 ->
  match storage w path (content response) with
  | Stored =>
      (fetch_then_load parse_csv url path w).1 = parse_csv (content response)
  | OpenFails e | WriteFails e _ =>
      (fetch_then_load parse_csv url path w).1 = Raise e
  end.
Proof.
  intros Hget H200. unfold fetch_then_load, fetch_energy_data.
  rewrite Hget, H200. change (200 =? 200) with true. cbv iota.
  destruct (storage w path (content response)) as [| e | e kept];
    [| reflexivity | reflexivity].
  simpl. unfold read_csv. simpl. by rewrite lookup_insert_eq.
Qed.

(** X2: when the server answers with another status, the load cell runs
    all the same and sees the path as it was before the fetch: it raises
    when there was no file, and it reads the older file when there was
    one. *)
Theorem fetch_then_load_not_downloaded (url path : string) (w : World)
    (response : Response) :
  network w url = Ok response ->
  status_code response <> 200 ->
  (fetch_then_load parse_csv url path w).1 = read_csv parse_csv path w /\
  (files w !! path = None ->
   (fetch_then_load parse_csv url path w).1 = Raise AnalysisException) /\
  (forall old, files w !! path = Some old ->
   (fetch_then_load parse_csv url path w).1 = parse_csv old).
Proof.
  intros Hget Hnot. apply Z.eqb_neq in Hnot.
  unfold fetch_then_load, fetch_energy_data. rewrite Hget, Hnot. simpl.
  unfold read_csv. simpl. split; [reflexivity |].
  split; [by intros -> | by intros old ->].
Qed.

End LoaderFacts.

(** ** The cleaning cell: when it returns, what it raises, what it keeps *)

Section CleanMore.

Context {E : Engine}.

(** The outcome of the cleaning cell, by cases on what it looks at. *)
Lemma clean_outcome (df : DataFrame) :
  match schema df !! "energy_consumption" with
  | None => clean df = Raise AnalysisException
  | Some t =>
      match mean (present_values df) with
      | None => clean df = Raise UnsupportedValueError
      | Some q =>
          match schema df !! "utc_timestamp" with
          | None => clean df = Raise AnalysisException
          | Some _ => clean df = Ok (cleaned q t df)
          end
      end
  end.
Proof.
  destruct (schema df !! "energy_consumption") as [t |] eqn:Ht.
  2: { unfold clean, agg_mean. by rewrite Ht. }
  destruct (mean (present_values df)) as [q |] eqn:Hq.
  - destruct (schema df !! "utc_timestamp") as [tu |] eqn:Hu.
    + apply clean_Ok; done || by eexists.
    + unfold clean, agg_mean, fillna, resolve, present_values in *.
      rewrite Ht. simpl. rewrite Hq. simpl. rewrite ?Ht. simpl.
      by rewrite Hu.
  - unfold clean, agg_mean, fillna, present_values in *.
    rewrite Ht. simpl. by rewrite Hq.
Qed.

(** X3: the cleaning cell returns exactly when [energy_consumption]
    resolves, be it a column of integers, doubles, strings or timestamps,
    at least one of its values is a number once cast to a double, and
    [utc_timestamp] resolves. *)
Theorem clean_returns_iff (df : DataFrame) :
  returns (clean df) <->
  is_Some (schema df !! "energy_consumption") /\
  present_values df <> [] /\
  is_Some (schema df !! "utc_timestamp").
Proof.
  split.
  - intros [df' Hclean].
    apply clean_Ok_inv in Hclean as (t & q & Ht & Hq & Hutc & _).
    split; [by exists t |]. split; [| exact Hutc].
    intros Hnil. by rewrite Hnil in Hq.
  - intros ([t Ht] & Hne & Hutc).
    destruct (mean (present_values df)) as [q |] eqn:Hq;
      [| by apply mean_None in Hq].
    exists (cleaned q t df). by apply clean_Ok.
Qed.

(** X4: the exception of the cleaning cell.  It is the engine's refusal of
    the replacement exactly when [energy_consumption] resolves and none of
    its values is present, whether [utc_timestamp] resolves or not; it is
    an analysis error exactly when [energy_consumption] does not resolve,
    or when a value is present and [utc_timestamp] does not resolve; it is
    never another exception. *)
Theorem clean_raises_cases (df : DataFrame) :
  (clean df = Raise UnsupportedValueError <->
   is_Some (schema df !! "energy_consumption") /\ present_values df = []) /\
  (clean df = Raise AnalysisException <->
   schema df !! "energy_consumption" = None \/
   (present_values df <> [] /\ schema df !! "utc_timestamp" = None)) /\
  (forall e, clean df = Raise e ->
             e = UnsupportedValueError \/ e = AnalysisException).
Proof.
  pose proof (clean_outcome df) as Hout.
  destruct (schema df !! "energy_consumption") as [t |] eqn:Ht.
  2: { rewrite Hout. split; [| split].
       - split; [discriminate | by intros [[t [=]] _]].
       - split; [by left | reflexivity].
       - intros e [= <-]. by right. }
  destruct (mean (present_values df)) as [q |] eqn:Hq.
  - assert (Hne : present_values df <> [])
      by (intros Hnil; by rewrite Hnil in Hq).
    destruct (schema df !! "utc_timestamp") as [tu |] eqn:Hu;
      rewrite Hout; (split; [| split]).
    + split; [discriminate | by intros [_ ?]].
    + split; [discriminate | intros [[=] | [_ [=]]]].
    + intros e [=].
    + split; [discriminate | by intros [_ ?]].
    + split; [intros _; by right | reflexivity].
    + intros e [= <-]. by right.
  - apply mean_None in Hq. rewrite Hout. split; [| split].
    + split; [intros _; split; [by exists t | done] | reflexivity].
    + split; [discriminate | intros [[=] | [? _]]; done].
    + intros e [= <-]. by left.
Qed.

(** X5: after the cleaning cell no record has a NULL [energy_consumption],
    whatever the type of the column. *)
Theorem clean_leaves_no_missing (df df' : DataFrame) :
  clean df = Ok df' -> Forall (fun r => ~ missing r) (rows df').
Proof.
  intros Hclean.
  apply clean_Ok_inv in Hclean as (t & q & _ & _ & _ & ->).
  unfold cleaned. simpl. apply Forall_fmap, Forall_true. intros r.
  unfold missing. simpl. rewrite cell_clean_row_energy.
  destruct (cell r "energy_consumption"); try discriminate.
  apply cast_double_not_null.
Qed.

(** X6: the replacement is one value for the whole frame.  The mean is
    taken once, over the present values in the order of the records and
    in the engine's double arithmetic, and cast to the type of the
    column; each missing value is replaced by that value and each present
    value is kept, whatever the type of the column. *)
Theorem clean_fills_with_cast_mean (df df' : DataFrame) :
  clean df = Ok df' ->
  exists t m,
    schema df !! "energy_consumption" = Some t /\
    mean (present_values df) = Some m /\
    forall i r, rows df !! i = Some r ->
      exists r', rows df' !! i = Some r' /\
        (missing r -> cell r' "energy_consumption" = cast_double m t) /\
        (~ missing r ->
         r' !! "energy_consumption" = r !! "energy_consumption").
Proof.
  intros Hclean.
  apply clean_Ok_inv in Hclean as (t & m & Ht & Hm & _ & ->).
  exists t, m. split; [exact Ht |]. split; [exact Hm |].
  intros i r Hi. exists (clean_row (cast_double m t) r). split.
  - unfold cleaned. simpl. by rewrite list_lookup_fmap, Hi.
  - split; intros Hmiss.
    + rewrite cell_clean_row_energy. unfold missing in Hmiss.
      by rewrite Hmiss.
    + rewrite lookup_clean_row_energy. by rewrite fill_row_present.
Qed.

Lemma integral_of_Z (q : Qc) : integral q -> q = of_Z (Qnum q).
Proof.
  intros Hq. unfold integral in Hq. apply Qc_is_canon.
  unfold of_Z. simpl. rewrite inject_Z_Qred.
  destruct q as [[n d] Hc]. simpl in *. by rewrite Hq.
Qed.

Lemma truncate_of_integral (m : Qc) : of_Z (truncate m) = m <-> integral m.
Proof.
  split.
  - intros <-. apply of_Z_integral.
  - intros Hm. rewrite (integral_of_Z m Hm) at 2. f_equal.
    unfold truncate. unfold integral in Hm. rewrite Hm. apply Z.quot_1_r.
Qed.

Lemma saturate64_in_range (z : Z) : in_long_range (saturate64 z).
Proof. unfold in_long_range, saturate64, LONG_MIN, LONG_MAX. lia. Qed.

Lemma saturate64_id (z : Z) : in_long_range z -> saturate64 z = z.
Proof. unfold in_long_range, saturate64, LONG_MIN, LONG_MAX. lia. Qed.

(** X18: on an integer column every missing value is replaced by the
    mean rounded toward zero, and by the nearest 64-bit integer when that
    is out of range; the replacement is the mean itself exactly when the
    mean the engine computed is an integer of the 64-bit range. *)
Theorem integer_fill_exact_iff (df df' : DataFrame) (m : Qc) :
  schema df !! "energy_consumption" = Some IntegerType ->
  mean (present_values df) = Some m ->
  clean df = Ok df' ->
  (forall i r, rows df !! i = Some r -> missing r ->
     exists r', rows df' !! i = Some r' /\
                cell r' "energy_consumption"
                = VNum (of_Z (saturate64 (truncate m)))) /\
  (of_Z (saturate64 (truncate m)) = m <->
   integral m /\ in_long_range (truncate m)).
Proof.
  intros Ht Hm Hclean.
  apply clean_Ok_inv in Hclean as (t' & m' & Ht' & Hm' & _ & ->).
  rewrite Ht in Ht'. injection Ht' as <-.
  rewrite Hm in Hm'. injection Hm' as <-.
  split.
  - intros i r Hi Hmiss. exists (clean_row (cast_double m IntegerType) r).
    split; [unfold cleaned; simpl; by rewrite list_lookup_fmap, Hi |].
    rewrite cell_clean_row_energy. unfold missing in Hmiss. by rewrite Hmiss.
  - split.
    + intros Heq. split; [rewrite <- Heq; apply of_Z_integral |].
      rewrite <- Heq at 1. rewrite truncate_of_Z. apply saturate64_in_range.
    + intros [Hint Hrange]. rewrite saturate64_id by exact Hrange.
      by apply truncate_of_integral.
Qed.

End CleanMore.

(** ** Types through the cleaning cell *)

Section CleanTypes.

Context {E : Engine}.

Lemma to_timestamp_has_type (v : Value) : has_type TimestampType (to_timestamp v).
Proof.
  destruct v as [| q | s | t]; simpl; try done.
  by destruct (string_to_timestamp s).
Qed.

Lemma cast_double_has_type (q : Qc) (t : DataType) : has_type t (cast_double q t).
Proof. destruct t; simpl; try done. apply of_Z_integral. Qed.

(** X7: the cleaning cell keeps a well-typed frame well typed: every cell
    of the frame it returns has the type its schema gives the column, the
    replacement in an integer column being an integer and the parsed
    column holding timestamps or NULL. *)
Theorem clean_keeps_well_typed (df df' : DataFrame) :
  well_typed df -> clean df = Ok df' -> well_typed df'.
Proof.
  intros Hwt Hclean.
  apply clean_Ok_inv in Hclean as (t & q & Ht & _ & _ & ->).
  intros c t' Hc. unfold cleaned in *. simpl in *.
  apply Forall_fmap, Forall_forall. intros r Hr. simpl.
  destruct (decide (c = "timestamp_column")) as [-> | Htc].
  - rewrite lookup_insert_eq in Hc. injection Hc as <-.
    unfold cell at 1. rewrite lookup_clean_row_timestamp. simpl.
    apply to_timestamp_has_type.
  - rewrite lookup_insert_ne in Hc by done.
    pose proof (proj1 (Forall_forall _ _) (Hwt c t' Hc) r Hr) as Hcell.
    destruct (decide (c = "energy_consumption")) as [-> | Hec].
    + rewrite Ht in Hc. injection Hc as <-. rewrite cell_clean_row_energy.
      destruct (cell r "energy_consumption"); try exact Hcell.
      apply cast_double_has_type.
    + unfold cell in *. by rewrite lookup_clean_row_other.
Qed.

End CleanTypes.

(** ** The aggregation cell: when it returns and what its entries are *)

Section AggregateMore.

Context {E : Engine}.

(** X9: the aggregation cell returns exactly when [timestamp_column]
    resolves to a string or timestamp column and [energy_consumption]
    resolves, be it a column of integers, doubles, strings or timestamps;
    otherwise it raises an analysis error, as it does on a frame the
    cleaning cell has not been run on, which has no [timestamp_column]. *)
Theorem daily_consumption_returns_iff (df : DataFrame) :
  (returns (daily_consumption df) <->
   (schema df !! "timestamp_column" = Some StringType \/
    schema df !! "timestamp_column" = Some TimestampType) /\
   is_Some (schema df !! "energy_consumption")) /\
  (forall e, daily_consumption df = Raise e -> e = AnalysisException) /\
  (schema df !! "timestamp_column" = None ->
   daily_consumption df = Raise AnalysisException).
Proof.
  pose proof (daily_consumption_outcome df) as Hout.
  split; [| split].
  - split.
    + intros [out Hret].
      apply daily_consumption_Ok_inv in Hret as (Htc & ct & Hct & _).
      split; [exact Htc | by exists ct].
    + intros [Htc [ct Hct]]. exists (daily_frame ct df).
      by apply daily_consumption_Ok.
  - intros e He.
    destruct (schema df !! "timestamp_column") as [[] |];
      rewrite ?Hout in He; try (by injection He);
      (destruct (schema df !! "energy_consumption") as [ct |];
       rewrite Hout in He; [discriminate | by injection He]).
  - intros Htc. by rewrite Htc in Hout.
Qed.

Lemma energy_type_Some (df : DataFrame) (ct : DataType) :
  schema df !! "energy_consumption" = Some ct -> energy_type df = ct.
Proof. intros Hct. unfold energy_type. by rewrite Hct. Qed.

Lemma date_key_VNull (r : gmap string Value) :
  date_key r = VNull <-> undated r.
Proof.
  unfold date_key, undated. rewrite date_trunc_day_day_of.
  by destruct (day_of (cell r "timestamp_column")).
Qed.

(** X10: the total of the entry of a day is the engine's sum of
    [energy_consumption] over the records that fall on that day, in their
    order, and over no other record.  Over an integer column it is the
    exact sum wrapped to 64 bits, hence the exact sum when that is a
    long. *)
Theorem daily_total_of_day (df out : DataFrame) (ct : DataType) (d : Z)
    (e : gmap string Value) :
  daily_consumption df = Ok out ->
  schema df !! "energy_consumption" = Some ct ->
  e ∈ rows out -> entry_of d e ->
  cell e "total_daily_consumption"
  = agg_sum ct (energy_where (falls_on d) (rows df)) /\
  (ct = IntegerType ->
   long_of (cell e "total_daily_consumption")
   = wrap64 (integer_where (falls_on d) (rows df)) /\
   (in_long_range (integer_where (falls_on d) (rows df)) ->
    long_of (cell e "total_daily_consumption")
    = integer_where (falls_on d) (rows df))).
Proof.
  intros Hout Hct He Hd.
  apply (elem_of_daily_rows df out e Hout) in He as (r & Hr & ->).
  unfold entry_of in Hd. rewrite cell_daily_entry_date in Hd.
  apply day_of_date_key, date_key_of_day in Hd.
  rewrite cell_daily_entry_total, Hd, (energy_type_Some df ct Hct).
  rewrite (list_filter_iff _ (falls_on d))
    by (intros r'; apply date_key_of_day).
  split; [reflexivity |]. intros ->.
  rewrite long_of_agg_sum. split; [reflexivity |].
  intros Hrange. by apply wrap64_in_range.
Qed.

(** X11: the records without a timestamp, those whose string the cast
    rejected among them, are not dropped: they make one entry with a NULL
    date, whose total is the engine's sum over these records; without such
    a record no entry has a NULL date. *)
Theorem undated_records_share_one_entry (df out : DataFrame) (ct : DataType) :
  daily_consumption df = Ok out ->
  schema df !! "energy_consumption" = Some ct ->
  length (filter (fun e => cell e "date" = VNull) (rows out))
  = (if decide (Exists undated (rows df)) then 1%nat else 0%nat) /\
  forall e, e ∈ rows out -> cell e "date" = VNull ->
    cell e "total_daily_consumption"
    = agg_sum ct (energy_where undated (rows df)).
Proof.
  intros Hout Hct. split.
  - rewrite (daily_consumption_key_entries df out VNull Hout).
    destruct (decide (Exists undated (rows df))) as [Hex | Hnex].
    + apply decide_True. apply list.Exists_exists in Hex as (r & Hr & Hu).
      apply list_elem_of_fmap. exists r.
      split; [| exact Hr]. symmetry. by apply date_key_VNull.
    + apply decide_False. intros Hin. apply Hnex.
      apply list_elem_of_fmap in Hin as (r & Hk & Hr).
      apply list.Exists_exists. exists r. split; [exact Hr |].
      by apply date_key_VNull.
  - intros e He Hnull.
    apply (elem_of_daily_rows df out e Hout) in He as (r & Hr & ->).
    rewrite cell_daily_entry_date in Hnull.
    rewrite cell_daily_entry_total, Hnull, (energy_type_Some df ct Hct).
    unfold energy_where.
    by rewrite (list_filter_iff _ undated) by (intros r'; apply date_key_VNull).
Qed.

(** X12: the date is a key of the output: no two entries have the same
    date, NULL included.  There are at most as many entries as records,
    and there is none exactly when there is no record. *)
Theorem daily_dates_are_a_key (df out : DataFrame) :
  daily_consumption df = Ok out ->
  NoDup (column "date" out) /\
  (length (rows out) <= length (rows df))%nat /\
  (rows out = [] <-> rows df = []).
Proof.
  intros Hout. split; [| split].
  - rewrite (column_date_daily df out Hout). apply NoDup_remove_dups.
  - rewrite (daily_consumption_rows df out Hout), length_fmap.
    rewrite <- (length_fmap date_key (rows df)).
    apply submseteq_length, NoDup_submseteq; [apply NoDup_remove_dups |].
    intros k. by rewrite elem_of_remove_dups.
  - rewrite (daily_consumption_rows df out Hout). split.
    + intros Hnil. apply fmap_nil_inv in Hnil.
      destruct (rows df) as [| r l]; [reflexivity |].
      assert (Hin : date_key r ∈ remove_dups (date_key <$> r :: l))
        by (apply elem_of_remove_dups; by left).
      rewrite Hnil in Hin. by apply not_elem_of_nil in Hin.
    + by intros ->.
Qed.

End AggregateMore.

(** ** The aggregation cell: shape, types and order *)

Section AggregateShape.

Context {E : Engine}.

Lemma date_key_shape (r : gmap string Value) :
  date_key r = VNull \/
  exists d, date_key r = VTimestamp (start_of_day d) /\ falls_on d r.
Proof.
  unfold date_key, falls_on. rewrite date_trunc_day_day_of.
  destruct (day_of (cell r "timestamp_column")) as [d |]; [right | by left].
  by exists d.
Qed.

(** X13: an entry of the output has a date and a total and no other cell:
    every other column of the input is gone, from the entries and from the
    schema.  The date is NULL or the instant at which a day of the session
    time zone starts, a day on which some record falls. *)
Theorem daily_entries_shape (df out : DataFrame) (e : gmap string Value) :
  daily_consumption df = Ok out -> e ∈ rows out ->
  (forall c, is_Some (e !! c) <->
             c = "date" \/ c = "total_daily_consumption") /\
  (forall c, is_Some (schema out !! c) <->
             c = "date" \/ c = "total_daily_consumption") /\
  (cell e "date" = VNull \/
   exists d r, cell e "date" = VTimestamp (start_of_day d) /\
               r ∈ rows df /\ falls_on d r).
Proof.
  intros Hout He.
  destruct (daily_consumption_schema df out Hout) as (ct & _ & Hschema).
  apply (elem_of_daily_rows df out e Hout) in He as (r & Hr & ->).
  split; [| split].
  - intros c. unfold daily_entry.
    rewrite lookup_insert_is_Some, lookup_singleton_is_Some.
    destruct (decide ("total_daily_consumption" = c)) as [<- | Hne];
      [by split; [right | left] |].
    split; [intros [<- | [_ <-]]; [by right | by left] |].
    intros [-> | ->]; [by right | done].
  - intros c. rewrite Hschema.
    rewrite lookup_insert_is_Some, lookup_singleton_is_Some.
    destruct (decide ("total_daily_consumption" = c)) as [<- | Hne];
      [by split; [right | left] |].
    split; [intros [<- | [_ <-]]; [by right | by left] |].
    intros [-> | ->]; [by right | done].
  - rewrite cell_daily_entry_date.
    destruct (date_key_shape r) as [Hnull | (d & Hd & Hfalls)];
      [by left | right]. by exists d, r.
Qed.

Lemma agg_sum_has_type (ct : DataType) (vs : list Value) :
  has_type (sum_type ct) (agg_sum ct vs).
Proof.
  unfold agg_sum. destruct ct; simpl.
  - destruct (omap to_long vs); [exact I | apply of_Z_integral].
  - by destruct (omap to_double vs).
  - by destruct (omap to_double vs).
  - by destruct (omap to_double vs).
Qed.

(** X14: the aggregation cell keeps a well-typed frame well typed: dates
    are timestamps or NULL, and the totals over an integer column are
    integers. *)
Theorem daily_consumption_keeps_well_typed (df out : DataFrame) :
  well_typed df -> daily_consumption df = Ok out -> well_typed out.
Proof.
  intros Hwt Hout.
  destruct (daily_consumption_schema df out Hout) as (ct & Hct & Hschema).
  intros c t Hc. rewrite Hschema in Hc.
  apply list.Forall_forall. intros e He.
  apply (elem_of_daily_rows df out e Hout) in He as (r & Hr & ->).
  apply lookup_insert_Some in Hc as [[<- <-] | [Hne Hc]].
  - rewrite cell_daily_entry_total, (energy_type_Some df ct Hct).
    apply agg_sum_has_type.
  - apply lookup_singleton_Some in Hc as [<- <-].
    rewrite cell_daily_entry_date.
    destruct (date_key_shape r) as [-> | (d & -> & _)]; done.
Qed.

(** The total over an integer column does not depend on the order of the
    cells. *)
Lemma agg_sum_integer_Permutation (vs vs' : list Value) :
  vs ≡ₚ vs' -> agg_sum IntegerType vs = agg_sum IntegerType vs'.
Proof.
  intros Hp. unfold agg_sum.
  assert (Hz : omap to_long vs ≡ₚ omap to_long vs') by (by rewrite Hp).
  destruct (omap to_long vs) as [| z zs], (omap to_long vs') as [| z' zs'].
  - reflexivity.
  - by apply Permutation_nil_cons in Hz.
  - symmetry in Hz. by apply Permutation_nil_cons in Hz.
  - do 2 f_equal. rewrite !long_sum_wrap. f_equal.
    by apply sum_Z_Permutation.
Qed.

(** X15: what of the aggregation cell depends on the order of the records.
    On two frames with the same schema and the same records in another
    order it returns on both or on neither, with the same schema and the
    same dates; over an integer column the entries are the same, in some
    order. *)
Theorem daily_consumption_Permutation (df1 df2 out1 : DataFrame) :
  schema df1 = schema df2 -> rows df1 ≡ₚ rows df2 ->
  daily_consumption df1 = Ok out1 ->
  exists out2,
    daily_consumption df2 = Ok out2 /\
    schema out2 = schema out1 /\
    column "date" out1 ≡ₚ column "date" out2 /\
    (schema df1 !! "energy_consumption" = Some IntegerType ->
     rows out1 ≡ₚ rows out2).
Proof.
  intros Hs Hp Hout1.
  destruct (daily_consumption_Ok_inv df1 out1 Hout1) as (Htc & ct & Hct & Heq).
  assert (Hout2 : daily_consumption df2 = Ok (daily_frame ct df2)).
  { apply daily_consumption_Ok; by rewrite <- Hs. }
  exists (daily_frame ct df2). split; [exact Hout2 |].
  assert (Hkeys : remove_dups (date_key <$> rows df1)
                  ≡ₚ remove_dups (date_key <$> rows df2)).
  { apply NoDup_Permutation; try apply NoDup_remove_dups.
    intros k. rewrite !elem_of_remove_dups. by rewrite Hp. }
  split; [by subst out1 |]. split.
  - by rewrite (column_date_daily df1 out1 Hout1),
               (column_date_daily df2 _ Hout2).
  - intros Hint. rewrite Hint in Hct. injection Hct as <-.
    subst out1. unfold daily_frame. simpl.
    rewrite (list_fmap_ext (daily_entry IntegerType (rows df1))
               (daily_entry IntegerType (rows df2))
               (remove_dups (date_key <$> rows df1))).
    + by apply fmap_Permutation.
    + intros i k _. unfold daily_entry. f_equal.
      apply agg_sum_integer_Permutation. by rewrite Hp.
Qed.

(** X16: after the cleaning cell, on a well-typed frame whose
    [energy_consumption] is numeric, every entry of the aggregation has a
    number for total: no total is NULL. *)
Theorem cleaned_totals_are_numbers (raw df out : DataFrame) :
  raw_frame raw -> well_typed raw ->
  clean raw = Ok df -> daily_consumption df = Ok out ->
  forall e, e ∈ rows out ->
    exists q, cell e "total_daily_consumption" = VNum q.
Proof.
  intros [(t & Ht & Hnum) _] Hwt Hclean Hout e He.
  apply clean_Ok_inv in Hclean as (t' & q & Ht' & _ & _ & ->).
  rewrite Ht in Ht'. injection Ht' as <-.
  apply (elem_of_daily_rows _ out e Hout) in He as (r & Hr & ->).
  rewrite cell_daily_entry_total, (energy_type_cleaned q t raw Ht).
  assert (Hin : exists x,
    VNum x ∈ (fun r => cell r "energy_consumption")
             <$> filter (fun r' => date_key r' = date_key r)
                   (rows (cleaned q t raw))).
  { unfold cleaned in Hr. simpl in Hr.
    apply list_elem_of_fmap in Hr as (r0 & -> & Hr0).
    pose proof (proj1 (list.Forall_forall _ _) (Hwt _ _ Ht) r0 Hr0) as Htyped.
    cbv beta in Htyped.
    assert (Hval : exists x,
      cell (clean_row (cast_double q t) r0) "energy_consumption" = VNum x).
    { rewrite cell_clean_row_energy.
      destruct (cell r0 "energy_consumption") as [| x | s | ts].
      - destruct Hnum as [-> | ->]; by eexists.
      - by exists x.
      - destruct Hnum as [-> | ->]; destruct Htyped.
      - destruct Hnum as [-> | ->]; destruct Htyped. }
    destruct Hval as [x Hx]. exists x.
    apply list_elem_of_fmap. exists (clean_row (cast_double q t) r0).
    split; [by rewrite Hx |]. apply list_elem_of_filter. split; [reflexivity |].
    unfold cleaned. simpl. apply list_elem_of_fmap. by exists r0. }
  destruct Hin as [x Hx]. unfold agg_sum.
  destruct Hnum as [-> | ->].
  - assert (Hz : truncate x ∈ omap to_long
                   ((fun r => cell r "energy_consumption")
                    <$> filter (fun r' => date_key r' = date_key r)
                          (rows (cleaned q IntegerType raw))))
      by (apply list_elem_of_omap; by exists (VNum x)).
    destruct (omap to_long _) as [| y ys];
      [by apply not_elem_of_nil in Hz | by eexists].
  - assert (Hz : round64 x ∈ omap to_double
                   ((fun r => cell r "energy_consumption")
                    <$> filter (fun r' => date_key r' = date_key r)
                          (rows (cleaned q DoubleType raw))))
      by (apply list_elem_of_omap; by exists (VNum x)).
    destruct (omap to_double _) as [| y ys];
      [by apply not_elem_of_nil in Hz | by eexists].
Qed.

End AggregateShape.

(** ** Runs on the example data *)

Section Runs.

Import Fetcher.

Local Existing Instance utc_engine.

(** A closed statement that can be decided is proved by evaluation. *)
Ltac decided := apply (bool_decide_unpack _); vm_compute; exact I.

Ltac raw_frame_example t :=
  split; [exists t; split; [reflexivity | (by left) || (by right)]
         | by eexists].

Ltac value_present_example :=
  eexists _, _; split; [apply list_elem_of_here | reflexivity].

(** A concrete frame is well typed: one column of the schema at a time. *)
Ltac cells_typed :=
  repeat constructor; vm_compute; (exact I || reflexivity).

Ltac well_typed_example df :=
  let c := fresh "c" in let t := fresh "t" in let Hc := fresh "Hc" in
  intros c t Hc;
  cbv beta iota delta [schema rows df raw_schema] in *;
  repeat (apply lookup_insert_Some in Hc as [[<- <-] | [_ Hc]];
          [cells_typed |]);
  apply lookup_singleton_Some in Hc as [<- <-]; cells_typed.

(** The cleaning cell on a frame with a value present. *)
Lemma clean_example (df : DataFrame) (t : DataType) :
  schema df !! "energy_consumption" = Some t ->
  is_Some (mean (present_values df)) ->
  is_Some (schema df !! "utc_timestamp") ->
  clean df = Ok (cleaned (mean_of df) t df).
Proof.
  intros Ht [q Hq] Hutc. apply clean_Ok; try done.
  unfold mean_of. by rewrite Hq.
Qed.

Ltac cleans :=
  apply clean_example; [reflexivity | vm_compute; by eexists | by eexists].

Ltac aggregates := apply daily_consumption_cleaned; reflexivity.

(** The scenarios of the specification. *)
Example scenario_daily_totals :
  exists df out,
    clean scenario_frame = Ok df /\
    daily_consumption df = Ok out /\
    column "date" out
    = [VTimestamp 1577836800000000; VTimestamp 1577923200000000] /\
    column "total_daily_consumption" out = [VInt 30; VInt 5].
Proof.
  eexists _, _. split; [cleans |]. split; [aggregates |]. split; decided.
Qed.

Example scenario_imputation :
  exists df,
    clean {| schema := raw_schema IntegerType;
             rows := [ record "2020-01-01T00:00:00Z" (VInt 10);
                       record "2020-01-01T12:00:00Z" VNull;
                       record "2020-01-02T00:00:00Z" (VInt 20) ] |} = Ok df /\
    column "energy_consumption" df = [VInt 10; VInt 15; VInt 20].
Proof. eexists. split; [cleans | decided]. Qed.

(** C1, on an integer column: the values are 10, missing and 21, the mean
    of the present values is 31/2, and the missing value is replaced by 15,
    the mean cast to the type of the column.  On the same cells read as
    doubles the replacement is 31/2. *)
Theorem integer_column_filled_with_truncated_mean :
  mean (present_values integer_frame) = Some (Qcdiv (of_Z 31) (of_Z 2)) /\
  (exists df',
     clean integer_frame = Ok df' /\
     column "energy_consumption" df' = [VInt 10; VInt 15; VInt 21]) /\
  (exists df',
     clean double_frame = Ok df' /\
     column "energy_consumption" df'
     = [VInt 10; VNum (Qcdiv (of_Z 31) (of_Z 2)); VInt 21]).
Proof.
  split; [decided |].
  split; eexists; (split; [cleans | decided]).
Qed.

(** The engine's arithmetic on the examples: longs that are no doubles
    are rounded before they are averaged, so that the replacement, 2^53,
    lies below both values; a column of strings is averaged over the
    strings that are numbers and filled with the mean as a string; a
    column of timestamps is averaged and summed in seconds. *)
Example large_integers_filled_below :
  mean (present_values large_frame) = Some (of_Z 9007199254740992) /\
  exists df',
    clean large_frame = Ok df' /\
    column "energy_consumption" df'
    = [VInt 9007199254740993; VInt 9007199254740992; VInt 9007199254740993].
Proof. split; [decided |]. eexists. split; [cleans | decided]. Qed.

Example strings_filled_with_printed_mean :
  exists df' out,
    clean words_frame = Ok df' /\
    column "energy_consumption" df'
    = [VString "10"; VString "n/a"; VString "15.5"; VString "21"] /\
    daily_consumption df' = Ok out /\
    column "total_daily_consumption" out
    = [VNum (decimal 255 1); VInt 21].
Proof.
  eexists _, _. split; [cleans |]. split; [decided |].
  split; [aggregates | decided].
Qed.

Example timestamps_averaged_in_seconds :
  exists df' out,
    clean instants_frame = Ok df' /\
    column "energy_consumption" df'
    = [VTimestamp 10000000; VTimestamp 15500000; VTimestamp 21000000] /\
    daily_consumption df' = Ok out /\
    column "total_daily_consumption" out
    = [VNum (decimal 255 1); VInt 21].
Proof.
  eexists _, _. split; [cleans |]. split; [decided |].
  split; [aggregates | decided].
Qed.

(** The mean of 0.3, 0.2 and 0.1 as the engine computes it is
    0.19999999999999998, and on the same values in the opposite order
    0.20000000000000004. *)
Example mean_depends_on_order :
  mean (present_values tenths_frame) = Some (decimal 19999999999999998 17) /\
  mean (reverse (present_values tenths_frame))
  = Some (decimal 20000000000000004 17) /\
  decimal 19999999999999998 17 <> decimal 20000000000000004 17.
Proof. split; [decided |]. split; decided. Qed.

(** C2, refuted.  On doubles: 0.3 on one day, 0.2 and 0.1 on the next;
    the totals are 0.3 and 0.30000000000000004, and they add up neither
    exactly nor in the engine's arithmetic to what the three values add up
    to.  On longs: the largest long and 1 on one day; the total wraps
    around to the smallest long. *)
Lemma daily_totals_differ_from_sum :
  (exists df out,
     clean tenths_frame = Ok df /\
     daily_consumption df = Ok out /\
     column "energy_consumption" df
     = [VNum (decimal 3 1); VNum (decimal 2 1); VNum (decimal 1 1)] /\
     column "total_daily_consumption" out
     = [VNum (decimal 3 1); VNum (decimal 30000000000000004 17)] /\
     column_sum "total_daily_consumption" out
     <> column_sum "energy_consumption" df /\
     double_sum (number <$> column "total_daily_consumption" out)
     <> double_sum (number <$> column "energy_consumption" df)) /\
  (exists df out,
     clean overflow_frame = Ok df /\
     daily_consumption df = Ok out /\
     column "energy_consumption" df = [VInt 9223372036854775807; VInt 1] /\
     column "total_daily_consumption" out = [VInt (-9223372036854775808)] /\
     column_sum "energy_consumption" df = of_Z 9223372036854775808 /\
     column_sum "total_daily_consumption" out
     <> column_sum "energy_consumption" df).
Proof.
  split.
  - eexists _, _. split; [cleans |]. split; [aggregates |].
    split; [decided |]. split; [decided |]. split; decided.
  - eexists _, _. split; [cleans |]. split; [aggregates |].
    split; [decided |]. split; [decided |]. split; decided.
Qed.

(** C2, amended, on the scenario. *)
Lemma daily_totals_conserve_sum_scenario :
  exists df,
    clean scenario_frame = Ok df /\
    exists out ct,
      daily_consumption df = Ok out /\
      schema df !! "energy_consumption" = Some ct /\
      (forall r, r ∈ rows df ->
         length (filter (fun e => cell e "date" = date_key r) (rows out))
         = 1%nat) /\
      (forall e, e ∈ rows out ->
         cell e "total_daily_consumption"
         = agg_sum ct (energy_where (fun r => date_key r = cell e "date")
                         (rows df))) /\
      (ct = IntegerType ->
       wrap64 (integer_sum "total_daily_consumption" out)
       = wrap64 (integer_sum "energy_consumption" df) /\
       (Forall (fun e =>
                  in_long_range
                    (integer_where (fun r => date_key r = cell e "date")
                       (rows df)))
               (rows out) ->
        integer_sum "total_daily_consumption" out
        = integer_sum "energy_consumption" df)).
Proof.
  assert (Hclean : clean scenario_frame
                   = Ok (cleaned (mean_of scenario_frame) IntegerType
                           scenario_frame)) by cleans.
  eexists. split; [exact Hclean |].
  exact (daily_totals_conserve_sum scenario_frame _ Hclean).
Defined.

(** On the scenario no day overflows, and the totals 30 and 5 add up to
    the 35 of the records. *)
Example scenario_sum_conserved :
  exists df out,
    clean scenario_frame = Ok df /\
    daily_consumption df = Ok out /\
    integer_sum "total_daily_consumption" out = 35 /\
    integer_sum "energy_consumption" df = 35.
Proof.
  eexists _, _. split; [cleans |]. split; [aggregates |].
  split; vm_compute; reflexivity.
Qed.

(** C3, on the scenario. *)
Lemma one_entry_per_day_scenario :
  exists df,
    clean scenario_frame = Ok df /\
    exists out,
      daily_consumption df = Ok out /\
      forall d : Z,
        ((exists r, r ∈ rows df /\ falls_on d r) ->
         length (filter (entry_of d) (rows out)) = 1%nat) /\
        ((~ exists r, r ∈ rows df /\ falls_on d r) ->
         length (filter (entry_of d) (rows out)) = 0%nat).
Proof.
  assert (Hclean : clean scenario_frame
                   = Ok (cleaned (mean_of scenario_frame) IntegerType
                           scenario_frame)) by cleans.
  eexists. split; [exact Hclean |].
  exact (one_entry_per_day scenario_frame _ Hclean).
Defined.

(** C5, refuted: the batch holds a timestamp that no cast accepts, and the
    cleaning cell returns all three records, the second with a NULL
    [timestamp_column]. *)
Lemma malformed_timestamp_does_not_fail :
  string_to_timestamp "yesterday" = None /\
  (exists r, r ∈ rows malformed_frame /\
             cell r "utc_timestamp" = VString "yesterday") /\
  (exists df',
     clean malformed_frame = Ok df' /\
     column "timestamp_column" df'
     = [VTimestamp 1577836800000000; VNull; VTimestamp 1577923200000000]) /\
  ~ exists e, clean malformed_frame = Raise e.
Proof.
  assert (Hclean : clean malformed_frame
                   = Ok (cleaned (mean_of malformed_frame) DoubleType
                           malformed_frame)) by cleans.
  split; [vm_compute; reflexivity |]. split.
  { eexists. split; [apply list_elem_of_further, list_elem_of_here |].
    vm_compute. reflexivity. }
  split.
  { eexists. split; [exact Hclean | decided]. }
  intros [e He]. rewrite Hclean in He. discriminate.
Qed.

(** C5, amended, on the batch with the malformed timestamp. *)
Lemma unparseable_timestamp_becomes_null_malformed :
  raw_frame malformed_frame /\ some_value_present malformed_frame /\
  exists df',
    clean malformed_frame = Ok df' /\
    length (rows df') = length (rows malformed_frame) /\
    forall i r s, rows malformed_frame !! i = Some r ->
      cell r "utc_timestamp" = VString s ->
      exists r', rows df' !! i = Some r' /\
        r' !! "timestamp_column"
        = Some (match string_to_timestamp s with
                | Some t => VTimestamp t
                | None => VNull
                end).
Proof.
  assert (Hraw : raw_frame malformed_frame) by raw_frame_example DoubleType.
  assert (Hsome : some_value_present malformed_frame)
    by value_present_example.
  split; [exact Hraw |]. split; [exact Hsome |].
  exact (unparseable_timestamp_becomes_null malformed_frame Hraw Hsome).
Defined.

(** C6, refuted: with the session in UTC, the record stamped
    2020-01-02T00:30:00+02:00 is grouped under 2020-01-01T00:00:00Z, and
    midnight of the written date at the written offset is
    2020-01-01T22:00:00Z. *)
Lemma offset_record_grouped_on_utc_day :
  exists w df out,
    Iso8601.parse "2020-01-02T00:30:00+02:00" = Some w /\
    clean offset_frame = Ok df /\
    daily_consumption df = Ok out /\
    column "date" out = [VTimestamp 1577836800000000] /\
    Iso8601.written_midnight UTC w = 1577916000000000 /\
    column "date" out <> [VTimestamp (Iso8601.written_midnight UTC w)].
Proof.
  eexists _, _, _. split; [vm_compute; reflexivity |]. split; [cleans |].
  split; [aggregates |]. split; [decided |].
  split; [vm_compute; reflexivity | decided].
Qed.

(** C6, amended, on the record with the offset. *)
Lemma grouped_by_session_day_offset :
  exists df r,
    clean offset_frame = Ok df /\
    rows offset_frame !! 0%nat = Some r /\
    exists out r' e,
      daily_consumption df = Ok out /\
      rows df !! 0%nat = Some r' /\
      e ∈ rows out /\
      cell e "date" = date_key r' /\
      (forall e', e' ∈ rows out -> cell e' "date" = date_key r' -> e' = e) /\
      date_key r'
      = match instant_of (cell r "utc_timestamp") with
        | Some t => VTimestamp (start_of_day (local_day t))
        | None => VNull
        end /\
      (forall t, instant_of (cell r "utc_timestamp") = Some t ->
         start_of_day (local_day t) <= t
         < start_of_day (local_day t) + MICROS_PER_DAY /\
         (start_of_day (local_day t) + session_zone) mod MICROS_PER_DAY = 0) /\
      (forall j r2, rows offset_frame !! j = Some r2 ->
         instant_of (cell r2 "utc_timestamp")
         = instant_of (cell r "utc_timestamp") ->
         exists r2', rows df !! j = Some r2' /\ date_key r2' = date_key r') /\
      (forall s w, cell r "utc_timestamp" = VString s ->
         string_to_timestamp s = Some (Iso8601.instant session_zone w) ->
         0 <= Iso8601.micro_of_day w < MICROS_PER_DAY ->
         Iso8601.in_session_zone session_zone w ->
         date_key r' = VTimestamp (Iso8601.written_midnight session_zone w)).
Proof.
  assert (Hclean : clean offset_frame
                   = Ok (cleaned (mean_of offset_frame) DoubleType
                           offset_frame)) by cleans.
  eexists _, (record "2020-01-02T00:30:00+02:00" (VInt 10)).
  split; [exact Hclean |]. split; [reflexivity |].
  exact (grouped_by_session_day offset_frame _ 0
           (record "2020-01-02T00:30:00+02:00" (VInt 10)) Hclean eq_refl).
Defined.

(** On the scenario, whose strings are written in UTC, the session's
    zone, the key of the second record is midnight of the written date. *)
Example written_in_session_zone :
  exists w r',
    Iso8601.parse "2020-01-01T12:00:00Z" = Some w /\
    string_to_timestamp "2020-01-01T12:00:00Z"
    = Some (Iso8601.instant session_zone w) /\
    Iso8601.in_session_zone session_zone w /\
    rows (cleaned (mean_of scenario_frame) IntegerType scenario_frame) !! 1%nat
    = Some r' /\
    date_key r' = VTimestamp (Iso8601.written_midnight session_zone w) /\
    Iso8601.written_midnight session_zone w = 1577836800000000.
Proof.
  eexists _, _. split; [vm_compute; reflexivity |].
  split; [vm_compute; reflexivity |]. split; [vm_compute; reflexivity |].
  split; [reflexivity |]. split; [decided | vm_compute; reflexivity].
Qed.

(** C7, refuted: every value of the frame is missing, the mean is NULL and
    [fillna] refuses it; no frame is returned. *)
Lemma clean_fails_when_all_missing :
  raw_frame all_missing_frame /\
  clean all_missing_frame = Raise UnsupportedValueError /\
  ~ exists df',
      clean all_missing_frame = Ok df' /\
      length (rows df') = length (rows all_missing_frame).
Proof.
  assert (Hclean : clean all_missing_frame = Raise UnsupportedValueError)
    by (vm_compute; reflexivity).
  split; [raw_frame_example DoubleType |]. split; [exact Hclean |].
  intros (df' & Hdf' & _). rewrite Hclean in Hdf'. discriminate.
Qed.

(** C7, amended, on the double frame. *)
Lemma clean_keeps_records_double :
  raw_frame double_frame /\ some_value_present double_frame /\
  exists df' v,
    clean double_frame = Ok df' /\
    length (rows df') = length (rows double_frame) /\
    rows df' = clean_row v <$> rows double_frame /\
    forall i r, rows double_frame !! i = Some r ->
      rows df' !! i = Some (clean_row v r).
Proof.
  assert (Hraw : raw_frame double_frame) by raw_frame_example DoubleType.
  assert (Hsome : some_value_present double_frame) by value_present_example.
  split; [exact Hraw |]. split; [exact Hsome |].
  exact (clean_keeps_records double_frame Hraw Hsome).
Defined.

(** C8, refuted: a frame without records is already clean, and the
    cleaning cell raises on it. *)
Lemma clean_fails_on_header_only :
  already_clean header_only_frame /\
  clean header_only_frame = Raise UnsupportedValueError /\
  clean header_only_frame <> Ok header_only_frame.
Proof.
  assert (Hclean : clean header_only_frame = Raise UnsupportedValueError)
    by (vm_compute; reflexivity).
  split.
  { split; [raw_frame_example DoubleType |]. split; [reflexivity |].
    constructor. }
  split; [exact Hclean |]. rewrite Hclean. discriminate.
Qed.

(** C8, amended, on the cleaned scenario. *)
Lemma clean_already_clean_tidy :
  already_clean tidy_frame /\ rows tidy_frame <> [] /\
  (clean tidy_frame ≫= clean) = clean tidy_frame /\
  clean tidy_frame = Ok tidy_frame.
Proof.
  assert (Hclean : already_clean tidy_frame).
  { split; [raw_frame_example DoubleType |]. split; [reflexivity |].
    repeat (constructor;
            [split; [eexists; reflexivity | vm_compute; reflexivity] |]).
    constructor. }
  assert (Hne : rows tidy_frame <> []) by discriminate.
  split; [exact Hclean |]. split; [exact Hne |].
  destruct (clean_already_clean tidy_frame) as [Htwice Hsame].
  split; [exact Htwice | exact (Hsame Hclean Hne)].
Defined.

(** C9, refuted: the input has a column [timestamp_column], which is not
    [energy_consumption], and the cleaning cell replaces its cell. *)
Lemma clean_overwrites_timestamp_column :
  exists df' r r',
    clean clash_frame = Ok df' /\
    rows clash_frame !! 0%nat = Some r /\
    rows df' !! 0%nat = Some r' /\
    r !! "timestamp_column" = Some (VString "kept?") /\
    r' !! "timestamp_column" = Some (VTimestamp 1577836800000000) /\
    "timestamp_column" <> "energy_consumption" /\
    r' !! "timestamp_column" <> r !! "timestamp_column".
Proof.
  eexists _, _, _. split; [cleans |]. split; [reflexivity |].
  split; [reflexivity |].
  assert (Hold : (<["timestamp_column" := VString "kept?"]>
                    (record "2020-01-01T00:00:00Z" (VInt 10)) : gmap _ _)
                 !! "timestamp_column" = Some (VString "kept?"))
    by apply lookup_insert_eq.
  assert (Hnew : clean_row
                   (cast_double (mean_of clash_frame) DoubleType)
                   (<["timestamp_column" := VString "kept?"]>
                      (record "2020-01-01T00:00:00Z" (VInt 10)))
                 !! "timestamp_column"
                 = Some (VTimestamp 1577836800000000)).
  { rewrite lookup_clean_row_timestamp. by vm_compute. }
  split; [exact Hold |]. split; [exact Hnew |].
  split; [discriminate |]. rewrite Hold, Hnew. discriminate.
Qed.

(** C9, amended, on the frame with the clashing column. *)
Lemma clean_frame_condition_clash :
  exists df',
    clean clash_frame = Ok df' /\
    (forall c, c <> "timestamp_column" ->
               schema df' !! c = schema clash_frame !! c) /\
    forall i r, rows clash_frame !! i = Some r ->
      exists r', rows df' !! i = Some r' /\
        (forall c, c <> "energy_consumption" -> c <> "timestamp_column" ->
                   r' !! c = r !! c) /\
        r' !! "utc_timestamp" = r !! "utc_timestamp" /\
        r' !! "timestamp_column"
        = Some (to_timestamp (cell r "utc_timestamp")) /\
        (~ missing r ->
         r' !! "energy_consumption" = r !! "energy_consumption").
Proof.
  assert (Hclean : clean clash_frame
                   = Ok (cleaned (mean_of clash_frame) DoubleType clash_frame))
    by cleans.
  eexists. split; [exact Hclean |].
  exact (clean_frame_condition clash_frame _ Hclean).
Defined.

(** X1, on a reply with status 200, with a destination that can be
    written and with one that cannot. *)
Lemma fetch_then_load_downloaded_200 :
  let w := Examples.world (Examples.reply 200) in
  let w' := Examples.world_without_directory (Examples.reply 200) in
  let reader := fun _ : list byte => Ok scenario_frame in
  network w dataset_url
  = Ok {| status_code := 200; content := Examples.body |} /\
  (fetch_then_load reader dataset_url "energy_data.csv" w).1
  = reader Examples.body /\
  (fetch_then_load reader dataset_url "missing/energy_data.csv" w').1
  = Raise Examples.no_such_directory.
Proof.
  intros w w' reader. split; [reflexivity |]. split.
  - exact (fetch_then_load_downloaded reader dataset_url "energy_data.csv" w
             {| status_code := 200; content := Examples.body |}
             eq_refl eq_refl).
  - exact (fetch_then_load_downloaded reader dataset_url
             "missing/energy_data.csv" w'
             {| status_code := 200; content := Examples.body |}
             eq_refl eq_refl).
Defined.

(** X2, on a reply with status 404 and no file from an earlier run. *)
Lemma fetch_then_load_not_downloaded_404 :
  let w := Examples.world (Examples.reply 404) in
  let reader := fun _ : list byte => Ok scenario_frame in
  network w dataset_url
  = Ok {| status_code := 404; content := Examples.body |} /\
  files w !! "energy_data.csv" = None /\
  (fetch_then_load reader dataset_url "energy_data.csv" w).1
  = Raise AnalysisException.
Proof.
  intros w reader. split; [reflexivity |]. split; [reflexivity |].
  assert (Hnot : 404 <> 200) by discriminate.
  destruct (fetch_then_load_not_downloaded reader dataset_url
              "energy_data.csv" w
              {| status_code := 404; content := Examples.body |}
              eq_refl Hnot) as (_ & Hmissing & _).
  exact (Hmissing eq_refl).
Defined.

(** X5, on the double frame. *)
Lemma clean_leaves_no_missing_double :
  exists df',
    clean double_frame = Ok df' /\
    Forall (fun r => ~ missing r) (rows df').
Proof.
  assert (Hclean : clean double_frame
                   = Ok (cleaned (mean_of double_frame) DoubleType
                           double_frame)) by cleans.
  eexists. split; [exact Hclean |].
  exact (clean_leaves_no_missing double_frame _ Hclean).
Defined.

(** X6, on the frame of large integers, where the mean is 2^53. *)
Lemma clean_fills_with_cast_mean_large :
  exists df' t m,
    clean large_frame = Ok df' /\
    schema large_frame !! "energy_consumption" = Some t /\
    mean (present_values large_frame) = Some m /\
    forall i r, rows large_frame !! i = Some r ->
      exists r', rows df' !! i = Some r' /\
        (missing r -> cell r' "energy_consumption" = cast_double m t) /\
        (~ missing r ->
         r' !! "energy_consumption" = r !! "energy_consumption").
Proof.
  assert (Hclean : clean large_frame
                   = Ok (cleaned (mean_of large_frame) IntegerType
                           large_frame)) by cleans.
  destruct (clean_fills_with_cast_mean large_frame _ Hclean)
    as (t & m & Hrest).
  eexists _, t, m. split; [exact Hclean | exact Hrest].
Defined.

(** X18, on the integer frame: the mean 31/2 is no integer. *)
Lemma integer_fill_exact_iff_integer :
  schema integer_frame !! "energy_consumption" = Some IntegerType /\
  exists m df',
    mean (present_values integer_frame) = Some m /\
    clean integer_frame = Ok df' /\
    (forall i r, rows integer_frame !! i = Some r -> missing r ->
       exists r', rows df' !! i = Some r' /\
                  cell r' "energy_consumption"
                  = VNum (of_Z (saturate64 (truncate m)))) /\
    (of_Z (saturate64 (truncate m)) = m <->
     integral m /\ in_long_range (truncate m)).
Proof.
  split; [reflexivity |].
  assert (Hclean : clean integer_frame
                   = Ok (cleaned (mean_of integer_frame) IntegerType
                           integer_frame)) by cleans.
  destruct (clean_Ok_inv _ _ Hclean) as (t & m & _ & Hm & _ & _).
  exists m. eexists. split; [exact Hm |]. split; [exact Hclean |].
  exact (integer_fill_exact_iff integer_frame _ m eq_refl Hm Hclean).
Defined.

(** X7, on the integer frame. *)
Lemma clean_keeps_well_typed_integer :
  well_typed integer_frame /\
  exists df', clean integer_frame = Ok df' /\ well_typed df'.
Proof.
  assert (Hwt : well_typed integer_frame)
    by well_typed_example integer_frame.
  assert (Hclean : clean integer_frame
                   = Ok (cleaned (mean_of integer_frame) IntegerType
                           integer_frame)) by cleans.
  split; [exact Hwt |]. eexists. split; [exact Hclean |].
  exact (clean_keeps_well_typed integer_frame _ Hwt Hclean).
Defined.

(** X10, on the scenario as the cleaning cell leaves it: the entry of
    2020-01-01, day 18262, the day of the first record. *)
Lemma daily_total_of_day_scenario :
  let df := tidy_integer_frame in
  let r0 := tidy_record "2020-01-01T00:00:00Z" 1577836800000000 (VInt 10) in
  let e := daily_entry IntegerType (rows df) (date_key r0) in
  exists out,
    daily_consumption df = Ok out /\
    schema df !! "energy_consumption" = Some IntegerType /\
    e ∈ rows out /\ entry_of 18262 e /\
    cell e "total_daily_consumption"
    = agg_sum IntegerType (energy_where (falls_on 18262) (rows df)) /\
    (IntegerType = IntegerType ->
     long_of (cell e "total_daily_consumption")
     = wrap64 (integer_where (falls_on 18262) (rows df)) /\
     (in_long_range (integer_where (falls_on 18262) (rows df)) ->
      long_of (cell e "total_daily_consumption")
      = integer_where (falls_on 18262) (rows df))).
Proof.
  intros df r0 e.
  assert (Hout : daily_consumption df = Ok (daily_frame IntegerType df))
    by (apply daily_consumption_Ok; [by right | reflexivity]).
  assert (He : e ∈ rows (daily_frame IntegerType df)).
  { apply (elem_of_daily_rows df _ e Hout). exists r0.
    split; [apply list_elem_of_here | reflexivity]. }
  assert (Hd : entry_of 18262 e) by (vm_compute; reflexivity).
  eexists. split; [exact Hout |]. split; [reflexivity |].
  split; [exact He |]. split; [exact Hd |].
  exact (daily_total_of_day df _ IntegerType 18262 e Hout eq_refl He Hd).
Defined.

Example scenario_first_day_total :
  let df := tidy_integer_frame in
  integer_where (falls_on 18262) (rows df) = 30 /\
  agg_sum IntegerType (energy_where (falls_on 18262) (rows df)) = VInt 30.
Proof. intros df. split; [vm_compute; reflexivity | decided]. Qed.

(** X11, on the batch with the malformed timestamp. *)
Lemma undated_records_share_one_entry_malformed :
  exists df out,
    clean malformed_frame = Ok df /\
    daily_consumption df = Ok out /\
    schema df !! "energy_consumption" = Some DoubleType /\
    length (filter (fun e => cell e "date" = VNull) (rows out))
    = (if decide (Exists undated (rows df)) then 1%nat else 0%nat) /\
    forall e, e ∈ rows out -> cell e "date" = VNull ->
      cell e "total_daily_consumption"
      = agg_sum DoubleType (energy_where undated (rows df)).
Proof.
  assert (Hclean : clean malformed_frame
                   = Ok (cleaned (mean_of malformed_frame) DoubleType
                           malformed_frame)) by cleans.
  assert (Hout : daily_consumption
                   (cleaned (mean_of malformed_frame) DoubleType malformed_frame)
                 = Ok (daily_frame DoubleType
                         (cleaned (mean_of malformed_frame) DoubleType
                            malformed_frame))) by aggregates.
  eexists _, _. split; [exact Hclean |]. split; [exact Hout |].
  split; [reflexivity |].
  exact (undated_records_share_one_entry _ _ DoubleType Hout eq_refl).
Defined.

Example malformed_record_under_null_date :
  exists df out,
    clean malformed_frame = Ok df /\
    daily_consumption df = Ok out /\
    column "date" out
    = [VTimestamp 1577836800000000; VNull; VTimestamp 1577923200000000] /\
    column "total_daily_consumption" out = [VInt 10; VInt 20; VInt 5].
Proof.
  eexists _, _. split; [cleans |]. split; [aggregates |]. split; decided.
Qed.

(** X12, on the scenario as the cleaning cell leaves it. *)
Lemma daily_dates_are_a_key_tidy :
  exists out,
    daily_consumption tidy_frame = Ok out /\
    NoDup (column "date" out) /\
    (length (rows out) <= length (rows tidy_frame))%nat /\
    (rows out = [] <-> rows tidy_frame = []).
Proof.
  assert (Hout : daily_consumption tidy_frame
                 = Ok (daily_frame DoubleType tidy_frame))
    by (apply daily_consumption_Ok; [by right | reflexivity]).
  eexists. split; [exact Hout |].
  exact (daily_dates_are_a_key tidy_frame _ Hout).
Defined.

(** X13, on the scenario as the cleaning cell leaves it, for the entry of
    the day of the first record. *)
Lemma daily_entries_shape_tidy :
  let r0 := tidy_record "2020-01-01T00:00:00Z" 1577836800000000 (VInt 10) in
  let e := daily_entry DoubleType (rows tidy_frame) (date_key r0) in
  exists out,
    daily_consumption tidy_frame = Ok out /\ e ∈ rows out /\
    (forall c, is_Some (e !! c) <->
               c = "date" \/ c = "total_daily_consumption") /\
    (forall c, is_Some (schema out !! c) <->
               c = "date" \/ c = "total_daily_consumption") /\
    (cell e "date" = VNull \/
     exists d r, cell e "date" = VTimestamp (start_of_day d) /\
                 r ∈ rows tidy_frame /\ falls_on d r).
Proof.
  intros r0 e.
  assert (Hout : daily_consumption tidy_frame
                 = Ok (daily_frame DoubleType tidy_frame))
    by (apply daily_consumption_Ok; [by right | reflexivity]).
  assert (He : e ∈ rows (daily_frame DoubleType tidy_frame)).
  { apply (elem_of_daily_rows tidy_frame _ e Hout). exists r0.
    split; [apply list_elem_of_here | reflexivity]. }
  eexists. split; [exact Hout |]. split; [exact He |].
  exact (daily_entries_shape tidy_frame _ e Hout He).
Defined.

(** X14, on the scenario as the cleaning cell leaves it. *)
Lemma daily_consumption_keeps_well_typed_tidy :
  well_typed tidy_frame /\
  exists out, daily_consumption tidy_frame = Ok out /\ well_typed out.
Proof.
  assert (Hwt : well_typed tidy_frame) by well_typed_example tidy_frame.
  assert (Hout : daily_consumption tidy_frame
                 = Ok (daily_frame DoubleType tidy_frame))
    by (apply daily_consumption_Ok; [by right | reflexivity]).
  split; [exact Hwt |]. eexists. split; [exact Hout |].
  exact (daily_consumption_keeps_well_typed tidy_frame _ Hwt Hout).
Defined.

(** X15, on the cleaned scenario, read as integers, and the same records
    in reverse order. *)
Lemma daily_consumption_Permutation_reversed :
  let df1 := tidy_integer_frame in
  let df2 := {| schema := schema df1; rows := reverse (rows df1) |} in
  rows df1 ≡ₚ rows df2 /\
  exists out1 out2,
    daily_consumption df1 = Ok out1 /\
    daily_consumption df2 = Ok out2 /\
    schema out2 = schema out1 /\
    column "date" out1 ≡ₚ column "date" out2 /\
    (schema df1 !! "energy_consumption" = Some IntegerType ->
     rows out1 ≡ₚ rows out2).
Proof.
  intros df1 df2.
  assert (Hp : rows df1 ≡ₚ rows df2)
    by (symmetry; apply reverse_Permutation).
  assert (Hout : daily_consumption df1 = Ok (daily_frame IntegerType df1))
    by (apply daily_consumption_Ok; [by right | reflexivity]).
  split; [exact Hp |].
  destruct (daily_consumption_Permutation df1 df2 _ eq_refl Hp Hout)
    as (out2 & H2 & Hs & Hdates & Hrows).
  exists (daily_frame IntegerType df1), out2.
  split; [exact Hout |]. split; [exact H2 |]. split; [exact Hs |].
  split; [exact Hdates | exact Hrows].
Defined.

(** Over doubles the totals do depend on the order of the records: 0.2
    and 0.1 make 0.30000000000000004 on the second day, and 0.1, 0.2 and
    0.3 on one day make 0.6000000000000001 in this order and 0.6 in the
    opposite one. *)
Example double_total_depends_on_order :
  double_sum [decimal 2 1; decimal 1 1] = decimal 30000000000000004 17 /\
  double_sum [decimal 1 1; decimal 2 1; decimal 3 1]
  = decimal 6000000000000001 16 /\
  double_sum [decimal 3 1; decimal 2 1; decimal 1 1] = decimal 6 1 /\
  decimal 6000000000000001 16 <> decimal 6 1.
Proof. split; [decided |]. split; [decided |]. split; decided. Qed.

(** X16, on the scenario. *)
Lemma cleaned_totals_are_numbers_scenario :
  raw_frame scenario_frame /\ well_typed scenario_frame /\
  exists df out,
    clean scenario_frame = Ok df /\
    daily_consumption df = Ok out /\
    forall e, e ∈ rows out ->
      exists q, cell e "total_daily_consumption" = VNum q.
Proof.
  assert (Hraw : raw_frame scenario_frame) by raw_frame_example IntegerType.
  assert (Hwt : well_typed scenario_frame)
    by well_typed_example scenario_frame.
  assert (Hclean : clean scenario_frame
                   = Ok (cleaned (mean_of scenario_frame) IntegerType
                           scenario_frame)) by cleans.
  assert (Hout : daily_consumption
                   (cleaned (mean_of scenario_frame) IntegerType scenario_frame)
                 = Ok (daily_frame IntegerType
                         (cleaned (mean_of scenario_frame) IntegerType
                            scenario_frame))) by aggregates.
  split; [exact Hraw |]. split; [exact Hwt |].
  eexists _, _. split; [exact Hclean |]. split; [exact Hout |].
  exact (cleaned_totals_are_numbers scenario_frame _ _ Hraw Hwt Hclean Hout).
Defined.

End Runs.
